(** * pytket offline display: template loader and notebook renderer

  A shallow embedding of [pytket/extensions/offline_display/__init__.py]
  and [pytket/circuit/offline_display/__init__.py].

  The two modules build a jinja2 loader (a [PrefixLoader] over two
  [ChoiceLoader]s) and, in the [extensions] module, subclass
  [CircuitRenderer] to display a circuit in a notebook through a temporary
  file.  Python exceptions are values of [exn] carried by [result]; the
  file system is a finite map from paths to contents; the code that runs
  against the outside world is written in a state-and-exception monad over
  [World]. *)

From Stdlib Require Import Ascii.
From stdpp Require Import base option list strings gmap.

Abbreviation Files := (gmap string string).

(** ** Python values and exceptions *)

Module Py.

Inductive exn_class : Type :=
| TemplateNotFound
| ValueError
| KeyError
| TypeError
| UnicodeEncodeError
| UnicodeDecodeError
| FileExistsError
| FileNotFoundError
| ModuleNotFoundError
| OtherException (name : string).

(** An exception object: its class, its argument, and [__context__], the
    exception that was being handled when this one was raised. *)
#[warnings="-register-all"]
Inductive exn : Type :=
| Exn (cls : exn_class) (arg : string) (context : option exn).

Definition exn_cls (e : exn) : exn_class :=
  match e with Exn c _ _ => c end.

Definition is_TemplateNotFound (e : exn) : bool :=
  match exn_cls e with TemplateNotFound => true | _ => false end.

(** [raised_while_handling e' e]: [e'] is raised while [e] is being
    handled, so [e] ends up at the far end of the context chain of [e']. *)
Fixpoint raised_while_handling (e' e : exn) : exn :=
  match e' with
  | Exn c a None => Exn c a (Some e)
  | Exn c a (Some e'') => Exn c a (Some (raised_while_handling e'' e))
  end.

Inductive result (A : Type) : Type :=
| Ok (a : A)
| Raise (e : exn).
Arguments Ok {A} a.
Arguments Raise {A} e.

(** [str.split(sep)] for a one-character separator. *)
Fixpoint str_split (sep : ascii) (s : string) : list string :=
  match s with
  | EmptyString => [EmptyString]
  | String c s' =>
      if Ascii.eqb c sep then EmptyString :: str_split sep s'
      else match str_split sep s' with
           | p :: ps => String c p :: ps
           | [] => [String c EmptyString]
           end
  end.

(** [str.split(sep, 1)]: [None] stands for the one-element list that is
    returned when [sep] does not occur, [Some (a, b)] for [[a, b]]. *)
Fixpoint str_split1 (sep : ascii) (s : string) : option (string * string) :=
  match s with
  | EmptyString => None
  | String c s' =>
      if Ascii.eqb c sep then Some (EmptyString, s')
      else match str_split1 sep s' with
           | Some (a, b) => Some (String c a, b)
           | None => None
           end
  end.

Definition startswith (c : ascii) (s : string) : bool :=
  match s with
  | String c' _ => Ascii.eqb c' c
  | EmptyString => false
  end.

Fixpoint endswith (c : ascii) (s : string) : bool :=
  match s with
  | EmptyString => false
  | String c' EmptyString => Ascii.eqb c' c
  | String _ s' => endswith c s'
  end.

(** [posixpath.join(a, b)]. *)
Definition os_path_join (a b : string) : string :=
  if startswith "/" b then b
  else if bool_decide (a = "") || endswith "/" a then a +:+ b
  else a +:+ "/" +:+ b.

(** [posixpath.join(a, *p)]. *)
Definition os_path_join_all (a : string) (p : list string) : string :=
  foldl os_path_join a p.

(** [sep.join(l)]. *)
Fixpoint str_join (sep : string) (l : list string) : string :=
  match l with
  | [] => ""
  | [x] => x
  | x :: l' => x +:+ sep +:+ str_join sep l'
  end.

(** The loop of [posixpath.normpath] over the components of a path.
    [new_comps] is kept with its last element first. *)
Fixpoint normpath_comps (initial_slashes : nat) (comps new_comps : list string)
  : list string :=
  match comps with
  | [] => reverse new_comps
  | comp :: comps' =>
      if bool_decide (comp = "") || bool_decide (comp = ".") then
        normpath_comps initial_slashes comps' new_comps
      else if bool_decide (comp ≠ "..")
              || (bool_decide (initial_slashes = 0)
                  && bool_decide (new_comps = []))
              || match new_comps with
                 | last :: _ => bool_decide (last = "..")
                 | [] => false
                 end
      then normpath_comps initial_slashes comps' (comp :: new_comps)
      else match new_comps with
           | _ :: popped => normpath_comps initial_slashes comps' popped
           | [] => normpath_comps initial_slashes comps' new_comps
           end
  end.

(** [posixpath.normpath(path)]. *)
Definition normpath (path : string) : string :=
  if bool_decide (path = "") then "."
  else
    let initial_slashes :=
      match path with
      | String "/" (String "/" (String "/" _)) => 1
      | String "/" (String "/" _) => 2
      | String "/" _ => 1
      | _ => 0
      end in
    let joined := str_join "/" (normpath_comps initial_slashes (str_split "/" path) []) in
    let path' :=
      match initial_slashes with
      | 0 => joined
      | 1 => "/" +:+ joined
      | _ => "//" +:+ joined
      end in
    if bool_decide (path' = "") then "." else path'.

(** Strings stand for Python text through their UTF-8 encoding, so that
    decoding a file is checking that its bytes are well-formed UTF-8. *)
Definition byte_in (lo hi : N) (c : ascii) : bool :=
  (lo <=? N_of_ascii c)%N && (N_of_ascii c <=? hi)%N.

Fixpoint utf8_valid (s : string) : bool :=
  match s with
  | EmptyString => true
  | String c0 s1 =>
      if byte_in 0 127 c0 then utf8_valid s1
      else if byte_in 194 223 c0 then
        match s1 with
        | String c1 s2 => byte_in 128 191 c1 && utf8_valid s2
        | _ => false
        end
      else if byte_in 224 239 c0 then
        match s1 with
        | String c1 (String c2 s3) =>
            byte_in (if byte_in 224 224 c0 then 160 else 128)
                    (if byte_in 237 237 c0 then 159 else 191) c1
            && byte_in 128 191 c2 && utf8_valid s3
        | _ => false
        end
      else if byte_in 240 244 c0 then
        match s1 with
        | String c1 (String c2 (String c3 s4)) =>
            byte_in (if byte_in 240 240 c0 then 144 else 128)
                    (if byte_in 244 244 c0 then 143 else 191) c1
            && byte_in 128 191 c2 && byte_in 128 191 c3 && utf8_valid s4
        | _ => false
        end
      else false
  end.

(** The newline translation of a file read in text mode: [\r\n] and a lone
    [\r] both become [\n]. *)
Fixpoint universal_newlines (s : string) : string :=
  match s with
  | EmptyString => EmptyString
  | String c s' =>
      if Ascii.eqb c "013" then
        match s' with
        | String c' s'' =>
            if Ascii.eqb c' "010" then String "010" (universal_newlines s'')
            else String "010" (universal_newlines s')
        | EmptyString => String "010" EmptyString
        end
      else String c (universal_newlines s')
  end.

(** [open(filename, encoding="utf-8").read()] on a file holding [raw]. *)
Definition read_text (raw : string) : result string :=
  if utf8_valid raw then Ok (universal_newlines raw)
  else Raise (Exn UnicodeDecodeError "utf-8" None).

End Py.

Import Py.

(** ** The part of jinja2 the modules rely on *)

Module Jinja.

(** What [get_source] returns: the template text and the file it came
    from.  (The third component, the [uptodate] callable, plays no part in
    resolution and is left out.) *)
Record Source : Type := { source : string; filename : string }.

(** A loader reads the file system and never writes it.  Each consultation
    of the file system is recorded, in order. *)
Inductive Access : Type :=
| IsFile (path : string)
| Open (path : string).

Definition Lookup (A : Type) : Type := Files → list Access * result A.

(** [BaseLoader.get_source(environment, template)]. *)
Definition Loader : Type := string → Lookup Source.

(** [split_template_path]: the segments of a template name; a [..]
    segment is refused. *)
Fixpoint check_pieces (template : string) (ps : list string)
  : result (list string) :=
  match ps with
  | [] => Ok []
  | piece :: ps' =>
      if bool_decide (piece = "..") then
        Raise (Exn TemplateNotFound template None)
      else
        match check_pieces template ps' with
        | Raise e => Raise e
        | Ok pieces =>
            if bool_decide (piece ≠ "") && bool_decide (piece ≠ ".")
            then Ok (piece :: pieces) else Ok pieces
        end
  end.

Definition split_template_path (template : string) : result (list string) :=
  check_pieces template (str_split "/" template).

(** [FileSystemLoader(searchpath).get_source]: the file is read as UTF-8
    text, and the path is returned normalised. *)
Definition FileSystemLoader (searchpath : string) : Loader :=
  fun template fs =>
    match split_template_path template with
    | Raise e => ([], Raise e)
    | Ok pieces =>
        let filename := os_path_join_all searchpath pieces in
        match fs !! filename with
        | None => ([IsFile filename], Raise (Exn TemplateNotFound template None))
        | Some raw =>
            match read_text raw with
            | Raise e => ([IsFile filename; Open filename], Raise e)
            | Ok contents =>
                ([IsFile filename; Open filename],
                 Ok {| source := contents; filename := normpath filename |})
            end
        end
    end.

(** [ChoiceLoader(loaders).get_source]: the first loader that does not
    raise [TemplateNotFound] decides; any other exception propagates. *)
Fixpoint ChoiceLoader_from (loaders : list Loader) : Loader :=
  fun template fs =>
    match loaders with
    | [] => ([], Raise (Exn TemplateNotFound template None))
    | loader :: rest =>
        match loader template fs with
        | (tr, Ok src) => (tr, Ok src)
        | (tr, Raise e) =>
            if is_TemplateNotFound e then
              let '(tr', r) := ChoiceLoader_from rest template fs in
              (tr ++ tr', r)
            else (tr, Raise e)
        end
    end.

Definition ChoiceLoader (loaders : list Loader) : Loader :=
  ChoiceLoader_from loaders.

(** [PrefixLoader(mapping).get_loader], with the default delimiter. *)
Definition get_loader (mapping : gmap string Loader) (template : string)
  : result (Loader * string) :=
  match str_split1 "/" template with
  | None =>
      Raise (Exn TemplateNotFound template
               (Some (Exn ValueError
                        "not enough values to unpack (expected 2, got 1)" None)))
  | Some (prefix, name) =>
      match mapping !! prefix with
      | None =>
          Raise (Exn TemplateNotFound template
                   (Some (Exn KeyError prefix None)))
      | Some loader => Ok (loader, name)
      end
  end.

(** [PrefixLoader(mapping).get_source]: a miss of the selected loader is
    raised again under the full, prefixed name. *)
Definition PrefixLoader (mapping : gmap string Loader) : Loader :=
  fun template fs =>
    match get_loader mapping template with
    | Raise e => ([], Raise e)
    | Ok (loader, name) =>
        match loader name fs with
        | (tr, Ok src) => (tr, Ok src)
        | (tr, Raise e) =>
            if is_TemplateNotFound e then
              (tr, Raise (Exn TemplateNotFound template (Some e)))
            else (tr, Raise e)
        end
    end.

(** [Environment(loader=..., extensions=[...])]. *)
Record Environment : Type :=
  { env_loader : Loader; env_extensions : list string }.

End Jinja.

Import Jinja.

(** ** The loader of both modules *)

Section Loader.

(** [os.path.dirname(__file__)], and the two loaders imported from
    [pytket.circuit.display]. *)
Variable dirname : string.
Variables html_loader js_loader : Loader.

Definition loader_mapping : gmap string Loader :=
  {[ "html" := ChoiceLoader
                 [ FileSystemLoader (os_path_join dirname "static");
                   html_loader ];
     "js" := ChoiceLoader
               [ FileSystemLoader (os_path_join dirname "dist");
                 js_loader ] ]}.

Definition loader : Loader := PrefixLoader loader_mapping.

Definition env : Environment :=
  {| env_loader := loader; env_extensions := ["IncludeRawExtension"] |}.

End Loader.

(** ** The world the renderer runs in *)

(** What [display] is handed: [IPython.display.HTML(data)]. *)
Inductive DisplayObject : Type :=
| HTML (data : string).

(** The effects of a call, in the order they happen. *)
Inductive Event : Type :=
| EvCreate (path : string)
| EvWrite (path text : string)
| EvDisplay (obj : DisplayObject)
| EvSleep (secs : nat)
| EvRemove (path : string).

Record World : Type :=
  { files : Files;          (* the file system: path to contents *)
    cwd : string;           (* [os.getcwd()] *)
    clock : nat;            (* seconds spent in [time.sleep] *)
    rand : nat;             (* position in tempfile's sequence of names *)
    recording : bool;       (* warnings are recorded instead of shown *)
    log : list Event }.

(** What the interpreter and the machine provide.  [os_TMP_MAX] is
    [os.TMP_MAX] where the platform has one (238328 with glibc).
    [IPython_display] is [None] where IPython cannot be imported.  The
    display capability is external: it may raise, and whatever it, or the
    frontend it notifies, does to the files is its effect on the file
    system. *)
Record Platform : Type :=
  { tmp_name : nat → string;
    os_TMP_MAX : option nat;
    locale_encodes : string → bool;
    IPython_display : option (DisplayObject → Files → Files * result unit) }.

Definition set_files (fs : Files) (w : World) : World :=
  {| files := fs; cwd := cwd w; clock := clock w; rand := rand w;
     recording := recording w; log := log w |}.

Definition set_clock (t : nat) (w : World) : World :=
  {| files := files w; cwd := cwd w; clock := t; rand := rand w;
     recording := recording w; log := log w |}.

Definition set_rand (n : nat) (w : World) : World :=
  {| files := files w; cwd := cwd w; clock := clock w; rand := n;
     recording := recording w; log := log w |}.

Definition set_recording (b : bool) (w : World) : World :=
  {| files := files w; cwd := cwd w; clock := clock w; rand := rand w;
     recording := b; log := log w |}.

Definition emit (ev : Event) (w : World) : World :=
  {| files := files w; cwd := cwd w; clock := clock w; rand := rand w;
     recording := recording w; log := log w ++ [ev] |}.

(** State and exceptions. *)
Definition M (A : Type) : Type := World → World * result A.

Definition ret {A : Type} (a : A) : M A := fun w => (w, Ok a).

Definition raise {A : Type} (e : exn) : M A := fun w => (w, Raise e).

Definition bind {A B : Type} (m : M A) (k : A → M B) : M B :=
  fun w =>
    match m w with
    | (w', Ok a) => k a w'
    | (w', Raise e) => (w', Raise e)
    end.

#[global] Instance M_ret : MRet M := @ret.
#[global] Instance M_bind : MBind M := fun A B k m => bind m k.

(** [try: body finally: fin].  An exception raised by [fin] replaces the
    outcome of [body]; if [body] had raised, that exception becomes the
    context of the new one. *)
Definition try_finally {A : Type} (body : M A) (fin : M unit) : M A :=
  fun w =>
    match body w with
    | (w1, Ok a) =>
        match fin w1 with
        | (w2, Ok _) => (w2, Ok a)
        | (w2, Raise e') => (w2, Raise e')
        end
    | (w1, Raise e) =>
        match fin w1 with
        | (w2, Ok _) => (w2, Raise e)
        | (w2, Raise e') => (w2, Raise (raised_while_handling e' e))
        end
    end.

(** [with warnings.catch_warnings(record=True): body]. *)
Definition with_catch_warnings {A : Type} (body : M A) : M A :=
  fun w =>
    let saved := recording w in
    let '(w', r) := body (set_recording true w) in
    (set_recording saved w', r).

Definition os_getcwd : M string := fun w => (w, Ok (cwd w)).

(** [time.sleep(secs)]. *)
Definition time_sleep (secs : nat) : M unit :=
  fun w => (emit (EvSleep secs) (set_clock (clock w + secs) w), Ok tt).

(** [os.remove(path)]. *)
Definition os_remove (path : string) : M unit :=
  fun w =>
    match files w !! path with
    | Some _ => (emit (EvRemove path) (set_files (delete path (files w)) w), Ok tt)
    | None => (w, Raise (Exn FileNotFoundError path None))
    end.

(** [os.path.relpath(path)] for an absolute [path]: both the path and the
    working directory are cut into their non-empty segments, the common
    prefix is dropped and every remaining segment of the working directory
    becomes a [..]. *)
Fixpoint drop_common (start_list path_list : list string)
  : list string * list string :=
  match start_list, path_list with
  | a :: start', b :: path' =>
      if bool_decide (a = b) then drop_common start' path'
      else (start_list, path_list)
  | _, _ => (start_list, path_list)
  end.

Definition segments (path : string) : list string :=
  filter (fun x => x ≠ "") (str_split "/" path).

Definition posixpath_relpath (path start : string) : string :=
  let '(start_rest, path_rest) := drop_common (segments start) (segments path) in
  let rel_list := replicate (length start_rest) ".." ++ path_rest in
  match rel_list with
  | [] => "."
  | p :: ps => os_path_join_all p ps
  end.

Definition os_path_relpath (path : string) : M string :=
  fun w => (w, Ok (posixpath_relpath path (cwd w))).

(** A text file open for writing: its name and the text not yet flushed. *)
Record TextIOWrapper : Type := { fp_name : string; fp_buffer : string }.

(** [tempfile.TMP_MAX]: [os.TMP_MAX] if the platform defines it, and 10000
    otherwise. *)
Definition TMP_MAX (P : Platform) : nat :=
  match os_TMP_MAX P with
  | Some n => n
  | None => 100 * 100
  end.

Section Capabilities.

Variable P : Platform.

(** [tempfile._mkstemp_inner]: candidate names are tried until one is free;
    the file is created empty. *)
Fixpoint mkstemp_inner (tries : nat) (dir pre suf : string) : M string :=
  fun w =>
    match tries with
    | O => (w, Raise (Exn FileExistsError "No usable temporary file name found" None))
    | S tries' =>
        let file := os_path_join dir (pre +:+ tmp_name P (rand w) +:+ suf) in
        let w' := set_rand (S (rand w)) w in
        match files w !! file with
        | Some _ => mkstemp_inner tries' dir pre suf w'
        | None => (emit (EvCreate file) (set_files (<[file := ""]> (files w')) w'), Ok file)
        end
    end.

(** [tempfile.NamedTemporaryFile(mode="w", suffix=suffix, delete=False, dir=dir)]. *)
Definition NamedTemporaryFile (suffix dir : string) : M TextIOWrapper :=
  file ← mkstemp_inner (TMP_MAX P) dir "tmp" suffix;
  mret {| fp_name := file; fp_buffer := "" |}.

(** [fp.write(s)]: the text is encoded and buffered. *)
Definition fp_write (fp : TextIOWrapper) (s : option string) : M TextIOWrapper :=
  match s with
  | None => raise (Exn TypeError "write() argument must be str, not None" None)
  | Some text =>
      if locale_encodes P text
      then mret {| fp_name := fp_name fp; fp_buffer := fp_buffer fp +:+ text |}
      else raise (Exn UnicodeEncodeError text None)
  end.

(** [fp.close()]: the buffered text reaches the file. *)
Definition fp_close (fp : TextIOWrapper) : M unit :=
  fun w =>
    match files w !! fp_name fp with
    | Some old =>
        (emit (EvWrite (fp_name fp) (fp_buffer fp))
           (set_files (<[fp_name fp := old +:+ fp_buffer fp]> (files w)) w), Ok tt)
    | None => (emit (EvWrite (fp_name fp) (fp_buffer fp)) w, Ok tt)
    end.

(** [from IPython.display import HTML, display]. *)
Definition import_IPython_display
  : M (DisplayObject → Files → Files * result unit) :=
  match IPython_display P with
  | Some d => mret d
  | None => raise (Exn ModuleNotFoundError "No module named 'IPython'" None)
  end.

(** Calling the imported [display]. *)
Definition call_display (d : DisplayObject → Files → Files * result unit)
  (obj : DisplayObject) : M unit :=
  fun w =>
    let w1 := emit (EvDisplay obj) w in
    let '(fs, r) := d obj (files w1) in
    (set_files fs w1, r).

Definition quote : string := String (Ascii.ascii_of_nat 34) EmptyString.

(** The f-string handed to [HTML]. *)
Definition iframe (relpath : string) : string :=
  "<iframe src=" +:+ quote +:+ "./" +:+ relpath +:+ quote
  +:+ " width=" +:+ quote +:+ "100%" +:+ quote
  +:+ " height=" +:+ quote +:+ "200px" +:+ quote +:+ " "
  +:+ "style=" +:+ quote
  +:+ "border: none; outline: none; resize: vertical; overflow: auto"
  +:+ quote +:+ ">"
  +:+ "</iframe>".

End Capabilities.

Arguments NamedTemporaryFile : simpl never.

(** ** The base class *)

Module CircuitRenderer.

Section CircuitRenderer.

Variables RenderCircuit IR : Type.

(** The conversion of a circuit to the structure the templates understand,
    the template engine, and the name of the page template. *)
Variable convert : RenderCircuit → result IR.
Variable template_render :
  Environment → Files → Source → IR → bool → result string.
Variable page_template : string.

Definition lift {A : Type} (r : result A) : M A := fun w => (w, r).

(** [env.get_template(name)]: resolution through the loader of the
    environment, reading the files as they are now. *)
Definition get_template (env : Environment) (name : string) : M Source :=
  fun w => (w, (env_loader env name (files w)).2).

(** Modelled from the spec: [CircuitRenderer.render_circuit_as_html] of
    [pytket.circuit.display], which both modules import and which is not
    part of them.  The circuit is converted to the intermediate structure
    understood by the templates, the template is resolved against the render
    environment and rendered, and the resulting string is returned; the call
    has no side effects, and fails if template resolution fails or the
    circuit cannot be converted. *)
Definition render_circuit_as_html (env : Environment)
  (circuit : RenderCircuit) (jupyter : bool) : M (option string) :=
  ir ← lift (convert circuit);
  template ← get_template env page_template;
  fs ← (fun w => (w, Ok (files w))) : M Files;
  html ← lift (template_render env fs template ir jupyter);
  mret (Some html).

End CircuitRenderer.

Arguments render_circuit_as_html {RenderCircuit IR} _ _ _ _ _ _ _.

End CircuitRenderer.

(** ** [OfflineRenderer(CircuitRenderer)] *)

Module OfflineRenderer.

Section OfflineRenderer.

Variable P : Platform.
Variable RenderCircuit : Type.

(** The method of the base class, which this class overrides and calls
    through [super()]. *)
Variable super_render_circuit_as_html :
  Environment → RenderCircuit → bool → M (option string).

(** [self.env]. *)
Variable self_env : Environment.

(** [OfflineRenderer.render_circuit_as_html].  The statement
    [import warnings] loads a module of the interpreter itself and cannot
    fail; [cast(str, html)] does nothing at run time, so [fp.write] receives
    whatever the base method returned. *)
Definition render_circuit_as_html (circuit : RenderCircuit) (jupyter : bool)
  : M (option string) :=
  html ← super_render_circuit_as_html self_env circuit false;
  if jupyter then
    display ← import_IPython_display P;
    dir ← os_getcwd;
    fp ← NamedTemporaryFile P ".html" dir;
    fp ← fp_write P fp html;
    fp_close fp;;
    try_finally
      (with_catch_warnings
         (rel ← os_path_relpath (fp_name fp);
          call_display display (HTML (iframe rel)));;
       mret None)
      (time_sleep 5;;
       os_remove (fp_name fp))
  else
    mret html.

End OfflineRenderer.

Arguments render_circuit_as_html _ {RenderCircuit} _ _ _ _ _.

End OfflineRenderer.

(** ** What the two modules expose *)

Section Modules.

Variable P : Platform.
Variables RenderCircuit IR : Type.
Variable convert : RenderCircuit → result IR.
Variable template_render :
  Environment → Files → Source → IR → bool → result string.
Variable page_template : string.
Variable dirname : string.
Variables html_loader js_loader : Loader.

(** [pytket.circuit.offline_display]:
    [circuit_renderer = CircuitRenderer(env)]. *)
Definition circuit_render_circuit_as_html
  : RenderCircuit → bool → M (option string) :=
  CircuitRenderer.render_circuit_as_html convert template_render page_template
    (env dirname html_loader js_loader).

(** [pytket.extensions.offline_display]:
    [circuit_renderer = OfflineRenderer(env)]. *)
Definition extensions_render_circuit_as_html
  : RenderCircuit → bool → M (option string) :=
  OfflineRenderer.render_circuit_as_html P
    (CircuitRenderer.render_circuit_as_html convert template_render page_template)
    (env dirname html_loader js_loader).

End Modules.

Arguments circuit_render_circuit_as_html {RenderCircuit IR} _ _ _ _ _ _ _ _.
Arguments extensions_render_circuit_as_html _ {RenderCircuit IR} _ _ _ _ _ _ _ _.

(** ** Vocabulary of the statements *)

(** A name is present in a tier when the tier's own lookup yields a source,
    and absent when that lookup misses with [TemplateNotFound]. *)
Definition present (tier : Loader) (name : string) (fs : Files) (src : Source)
  : Prop :=
  (tier name fs).2 = Ok src.

Definition absent (tier : Loader) (name : string) (fs : Files) : Prop :=
  ∃ e, (tier name fs).2 = Raise e ∧ is_TemplateNotFound e = true.

(** The override tier and the base tier of a namespace, as [loader] lists
    them. *)
Definition tiers (dirname : string) (html_loader js_loader : Loader)
  (ns : string) : option (Loader * Loader) :=
  if bool_decide (ns = "html") then
    Some (FileSystemLoader (os_path_join dirname "static"), html_loader)
  else if bool_decide (ns = "js") then
    Some (FileSystemLoader (os_path_join dirname "dist"), js_loader)
  else None.

(** The template name a namespace-qualified lookup passes to [loader]. *)
Definition qualified (ns name : string) : string := ns +:+ "/" +:+ name.

(** The files a stretch of the log creates. *)
Definition created (evs : list Event) : list string :=
  omap (fun ev => match ev with EvCreate path => Some path | _ => None end) evs.

(** ** A small installation to run the definitions on *)

Module Sample.

Definition base_html : Loader := FileSystemLoader "/lib/display/static".
Definition base_js : Loader := FileSystemLoader "/lib/display/dist".

Definition fs : Files :=
  {[ "/lib/display/static/circuit.html" := "<div>base page</div>";
     "/pkg/static/circuit.html" := "<div>offline page</div>";
     "/lib/display/static/legend.html" := "<div>legend</div>";
     "/lib/display/dist/main.js" := "render()" ]}.

Definition L : Loader := loader "/pkg" base_html base_js.

(** Circuits are their serialised text here, and the template engine
    appends the circuit to the page. *)
Definition convert (circuit : string) : result string := Ok circuit.

Definition engine (_ : Environment) (_ : Files) (template : Source)
  (ir : string) (_ : bool) : result string :=
  Ok (source template +:+ ir).

Definition tmp : string := "/home/u/nb/tmpk3x9q_a1.html".

Definition names (n : nat) : string := "k3x9q_a1".

(** A notebook whose display accepts the object and leaves the files alone. *)
Definition notebook : Platform :=
  {| tmp_name := names;
     os_TMP_MAX := Some (62 * 62 * 62);
     locale_encodes := fun _ => true;
     IPython_display := Some (fun _ files => (files, Ok tt)) |}.

(** An interpreter without IPython. *)
Definition plain_python : Platform :=
  {| tmp_name := names;
     os_TMP_MAX := Some (62 * 62 * 62);
     locale_encodes := fun _ => true;
     IPython_display := None |}.

(** A display that raises. *)
Definition display_error : exn := Exn (OtherException "DisplayError") "no frontend" None.

Definition broken_notebook : Platform :=
  {| tmp_name := names;
     os_TMP_MAX := Some (62 * 62 * 62);
     locale_encodes := fun _ => true;
     IPython_display := Some (fun _ files => (files, Raise display_error)) |}.

(** Frontends under which the served file is gone before the delay is over. *)
Definition consuming_notebook : Platform :=
  {| tmp_name := names;
     os_TMP_MAX := Some (62 * 62 * 62);
     locale_encodes := fun _ => true;
     IPython_display := Some (fun _ files => (delete tmp files, Ok tt)) |}.

Definition broken_consuming_notebook : Platform :=
  {| tmp_name := names;
     os_TMP_MAX := Some (62 * 62 * 62);
     locale_encodes := fun _ => true;
     IPython_display :=
       Some (fun _ files => (delete tmp files, Raise display_error)) |}.

(** A locale that cannot encode the page. *)
Definition ascii_locale_notebook : Platform :=
  {| tmp_name := names;
     os_TMP_MAX := Some (62 * 62 * 62);
     locale_encodes := fun _ => false;
     IPython_display := Some (fun _ files => (files, Ok tt)) |}.

Definition w0 : World :=
  {| files := fs; cwd := "/home/u/nb"; clock := 0; rand := 0;
     recording := false; log := [] |}.

(** The same machine with no template installed anywhere. *)
Definition w_bare : World :=
  {| files := ∅; cwd := "/home/u/nb"; clock := 0; rand := 0;
     recording := false; log := [] |}.

Definition base_render : Environment → string → bool → M (option string) :=
  CircuitRenderer.render_circuit_as_html convert engine "html/circuit.html".

Definition render (P : Platform) : string → bool → M (option string) :=
  extensions_render_circuit_as_html P convert engine "html/circuit.html"
    "/pkg" base_html base_js.

End Sample.

(** ** Further installations *)

Module Faults.

(** A base tier on a disk that cannot be read. *)
Definition permission_error : exn :=
  Exn (OtherException "PermissionError") "/lib/display/static" None.

Definition unreadable_base : Loader :=
  fun _ _ => ([IsFile "/lib/display/static"], Raise permission_error).

(** The sample machine after an earlier call left its file behind: every
    name the generator proposes is taken. *)
Definition w_taken : World :=
  {| files := <[Sample.tmp := "stale"]> Sample.fs; cwd := "/home/u/nb";
     clock := 0; rand := 0; recording := false; log := [] |}.

(** A file outside the override directory, under the path by which a
    lookup of [../secret.html] in that directory would reach it. *)
Definition fs_secret : Files :=
  <["/pkg/static/../secret.html" := "<div>secret</div>"]> Sample.fs.

(** The sample installation with a script of its own. *)
Definition fs_script : Files :=
  <["/pkg/dist/main.js" := "offline()"]> Sample.fs.




End Faults.

(** * Properties of the loader *)

Section LoaderFacts.

Variable dirname : string.
Variables html_loader js_loader : Loader.

Lemma append_cons (c : ascii) (a b : string) :
  String c a +:+ b = String c (a +:+ b).
Proof. reflexivity. Qed.

Lemma str_split1_app (ns name : string) :
  str_split1 "/" ns = None →
  str_split1 "/" (qualified ns name) = Some (ns, name).
Proof.
  unfold qualified. induction ns as [|c ns IH]; [done|].
  rewrite append_cons. simpl.
  destruct (Ascii.eqb c "/"); [done|].
  destruct (str_split1 "/" ns) as [[a b]|]; [done|].
  intros _. by rewrite IH.
Qed.

Lemma str_split1_Some (s a b : string) :
  str_split1 "/" s = Some (a, b) → s = qualified a b.
Proof.
  revert a b. induction s as [|c s IH]; simpl; [done|]. intros a b.
  destruct (Ascii.eqb c "/") eqn:Ec.
  - apply Ascii.eqb_eq in Ec as ->. by intros [= <- <-].
  - destruct (str_split1 "/" s) as [[a' b']|]; [|done].
    intros [= <- <-]. unfold qualified in *. rewrite append_cons.
    f_equal. by apply IH.
Qed.

Lemma tiers_no_delimiter (ns : string) (o b : Loader) :
  tiers dirname html_loader js_loader ns = Some (o, b) →
  str_split1 "/" ns = None.
Proof.
  unfold tiers. repeat case_bool_decide; subst; simpl; done.
Qed.

Lemma loader_mapping_tiers (ns : string) :
  loader_mapping dirname html_loader js_loader !! ns
  = (λ t, ChoiceLoader [t.1; t.2]) <$> tiers dirname html_loader js_loader ns.
Proof.
  unfold loader_mapping, tiers.
  repeat case_bool_decide; subst; simplify_map_eq; done.
Qed.

(** A qualified lookup in a namespace the loader knows is the lookup of the
    bare name in that namespace's chain, with a miss re-raised under the
    qualified name. *)
Lemma loader_qualified (ns name : string) (o b : Loader) (fs : Files) :
  tiers dirname html_loader js_loader ns = Some (o, b) →
  loader dirname html_loader js_loader (qualified ns name) fs
  = match ChoiceLoader [o; b] name fs with
    | (tr, Ok src) => (tr, Ok src)
    | (tr, Raise e) =>
        if is_TemplateNotFound e
        then (tr, Raise (Exn TemplateNotFound (qualified ns name) (Some e)))
        else (tr, Raise e)
    end.
Proof.
  intros Ht. unfold loader, PrefixLoader, get_loader.
  rewrite (str_split1_app ns name (tiers_no_delimiter _ _ _ Ht)).
  rewrite loader_mapping_tiers, Ht. reflexivity.
Qed.

Lemma ChoiceLoader_first (o b : Loader) (name : string) (fs : Files) (src : Source) :
  present o name fs src → ChoiceLoader [o; b] name fs = o name fs.
Proof.
  unfold present, ChoiceLoader. simpl.
  destruct (o name fs) as [tr [s|e]]; simpl; congruence.
Qed.

Lemma ChoiceLoader_second (o b : Loader) (name : string) (fs : Files) (src : Source) :
  absent o name fs → present b name fs src →
  ChoiceLoader [o; b] name fs = ((o name fs).1 ++ (b name fs).1, Ok src).
Proof.
  unfold absent, present, ChoiceLoader. simpl. intros (e & He & Hnf) Hb.
  destruct (o name fs) as [tr r]; simpl in *. subst r. rewrite Hnf.
  destruct (b name fs) as [tr' r']; simpl in *. by subst r'.
Qed.

Lemma ChoiceLoader_none (o b : Loader) (name : string) (fs : Files) :
  absent o name fs → absent b name fs →
  ChoiceLoader [o; b] name fs
  = ((o name fs).1 ++ (b name fs).1, Raise (Exn TemplateNotFound name None)).
Proof.
  unfold absent, ChoiceLoader. simpl. intros (e & He & Hnf) (e' & He' & Hnf').
  destruct (o name fs) as [tr r]; simpl in *. subst r. rewrite Hnf.
  destruct (b name fs) as [tr' r']; simpl in *. subst r'. rewrite Hnf'.
  by rewrite app_nil_r.
Qed.

(** The override tier is a directory: a name is present in it exactly when
    its segments lead to a file that holds well-formed text, and absent
    exactly when its segments are refused or lead to no file. *)
Lemma FileSystemLoader_present (searchpath name : string) (fs : Files)
    (src : Source) :
  present (FileSystemLoader searchpath) name fs src ↔
  ∃ pieces raw,
    split_template_path name = Ok pieces
    ∧ fs !! os_path_join_all searchpath pieces = Some raw
    ∧ utf8_valid raw = true
    ∧ src = {| source := universal_newlines raw;
               filename := normpath (os_path_join_all searchpath pieces) |}.
Proof.
  unfold present, FileSystemLoader, read_text. split.
  - destruct (split_template_path name) as [pieces|e]; [|done].
    destruct (fs !! os_path_join_all searchpath pieces) as [raw|] eqn:E;
      [|done].
    destruct (utf8_valid raw) eqn:Hv; [|done].
    intros [= <-]. by exists pieces, raw.
  - intros (pieces & raw & -> & Hf & Hv & ->). by rewrite Hf, Hv.
Qed.

Lemma check_pieces_raises (template : string) (ps : list string) (e : exn) :
  check_pieces template ps = Raise e → is_TemplateNotFound e = true.
Proof.
  revert e. induction ps as [|piece ps IH]; intros e; simpl; [done|].
  case_bool_decide; [by intros [= <-]|].
  destruct (check_pieces template ps) as [pieces|e'].
  - by destruct (_ && _).
  - intros [= <-]. by apply IH.
Qed.

Lemma FileSystemLoader_absent (searchpath name : string) (fs : Files) :
  absent (FileSystemLoader searchpath) name fs ↔
  ∀ pieces, split_template_path name = Ok pieces →
            fs !! os_path_join_all searchpath pieces = None.
Proof.
  unfold absent, FileSystemLoader, read_text.
  destruct (split_template_path name) as [pieces|e] eqn:Hp.
  - destruct (fs !! os_path_join_all searchpath pieces) as [raw|] eqn:E.
    + split.
      * destruct (utf8_valid raw); by intros (e & [= <-] & ?).
      * intros H. by rewrite (H pieces eq_refl) in E.
    + split; [by intros _ pieces' [= <-]|]. intros _. by eexists.
  - split; [done|]. intros _. exists e. split; [done|].
    by apply (check_pieces_raises name (str_split "/" name)).
Qed.

(** C2 (override precedence): a name present in both tiers of a namespace
    resolves to the source of the override tier.  The lookup is the override
    tier's own lookup, so the base tier is not consulted, and whenever the
    two sources differ the result is not the base tier's. *)
Theorem override_precedence (ns name : string) (o b : Loader) (fs : Files)
    (so sb : Source) :
  tiers dirname html_loader js_loader ns = Some (o, b) →
  present o name fs so →
  present b name fs sb →
  (loader dirname html_loader js_loader (qualified ns name) fs).2 = Ok so
  ∧ loader dirname html_loader js_loader (qualified ns name) fs = o name fs
  ∧ (so ≠ sb →
     (loader dirname html_loader js_loader (qualified ns name) fs).2 ≠ Ok sb).
Proof.
  intros Ht Ho _. rewrite (loader_qualified _ _ _ _ _ Ht).
  rewrite (ChoiceLoader_first _ _ _ _ _ Ho). unfold present in Ho.
  destruct (o name fs) as [tr r]; simpl in *. subst r.
  split; [done|]. split; [done|]. intros Hne [= ->]. done.
Qed.

(** C3 (fallback): a name absent from the override tier and present in the
    base tier resolves, without error, to exactly what the base tier returns
    when asked directly; the override tier is consulted first. *)
Theorem fallback_to_base (ns name : string) (o b : Loader) (fs : Files)
    (sb : Source) :
  tiers dirname html_loader js_loader ns = Some (o, b) →
  absent o name fs →
  present b name fs sb →
  (loader dirname html_loader js_loader (qualified ns name) fs).2 = Ok sb
  ∧ (loader dirname html_loader js_loader (qualified ns name) fs).2
    = (b name fs).2
  ∧ (loader dirname html_loader js_loader (qualified ns name) fs).1
    = (o name fs).1 ++ (b name fs).1.
Proof.
  intros Ht Ho Hb. rewrite (loader_qualified _ _ _ _ _ Ht).
  rewrite (ChoiceLoader_second _ _ _ _ _ Ho Hb). simpl.
  unfold present in Hb. by rewrite Hb.
Qed.

(** C4 (missing name): a name absent from both tiers of a namespace makes
    the lookup raise [TemplateNotFound] for the qualified name; no source is
    returned, and each tier has been consulted exactly once, the override
    tier first: nothing is tried again. *)
Theorem missing_name_fails (ns name : string) (o b : Loader) (fs : Files) :
  tiers dirname html_loader js_loader ns = Some (o, b) →
  absent o name fs →
  absent b name fs →
  loader dirname html_loader js_loader (qualified ns name) fs
  = ((o name fs).1 ++ (b name fs).1,
     Raise (Exn TemplateNotFound (qualified ns name)
              (Some (Exn TemplateNotFound name None))))
  ∧ ∀ src, (loader dirname html_loader js_loader (qualified ns name) fs).2
           ≠ Ok src.
Proof.
  intros Ht Ho Hb. rewrite (loader_qualified _ _ _ _ _ Ht).
  rewrite (ChoiceLoader_none _ _ _ _ Ho Hb). simpl. split; [done|]. done.
Qed.

(** C10 (two namespaces): the mapping of the loader has the keys [html] and
    [js] and no other; a lookup whose name is not qualified by one of them
    raises [TemplateNotFound] whatever follows the prefix, and no tier is
    consulted. *)
Theorem only_html_and_js :
  dom (loader_mapping dirname html_loader js_loader) = ({["html"; "js"]} : gset string)
  ∧ ∀ (template : string) (fs : Files),
      (∀ name, template ≠ qualified "html" name) →
      (∀ name, template ≠ qualified "js" name) →
      ∃ cause,
        loader dirname html_loader js_loader template fs
        = ([], Raise (Exn TemplateNotFound template (Some cause))).
Proof.
  split.
  - unfold loader_mapping. rewrite dom_insert_L, dom_singleton_L. done.
  - intros template fs Hh Hj. unfold loader, PrefixLoader, get_loader.
    destruct (str_split1 "/" template) as [[prefix name]|] eqn:E;
      [|by eexists].
    apply str_split1_Some in E.
    rewrite loader_mapping_tiers. unfold tiers.
    repeat case_bool_decide; subst; simpl.
    + by destruct (Hh name).
    + by destruct (Hj name).
    + by eexists.
Qed.

End LoaderFacts.

(** * Properties of the renderer *)

Lemma append_nil_l (s : string) : "" +:+ s = s.
Proof. reflexivity. Qed.

Section TempFile.

Variable P : Platform.

Lemma mkstemp_inner_Ok (tries : nat) (dir pre suf : string) (w w' : World)
    (file : string) :
  mkstemp_inner P tries dir pre suf w = (w', Ok file) →
  files w !! file = None
  ∧ files w' = <[file := ""]> (files w)
  ∧ cwd w' = cwd w ∧ clock w' = clock w ∧ recording w' = recording w
  ∧ log w' = log w ++ [EvCreate file].
Proof.
  revert w. induction tries as [|n IH]; intros w; simpl; [done|].
  destruct (files w !! _) eqn:E.
  - intros H. apply IH in H. exact H.
  - intros [= <- <-]. simpl. done.
Qed.

Lemma NamedTemporaryFile_Ok (suffix dir : string) (w w' : World)
    (fp : TextIOWrapper) :
  NamedTemporaryFile P suffix dir w = (w', Ok fp) →
  fp_buffer fp = ""
  ∧ files w !! fp_name fp = None
  ∧ files w' = <[fp_name fp := ""]> (files w)
  ∧ cwd w' = cwd w ∧ clock w' = clock w ∧ recording w' = recording w
  ∧ log w' = log w ++ [EvCreate (fp_name fp)].
Proof.
  unfold NamedTemporaryFile, mbind, M_bind, bind.
  destruct (mkstemp_inner P (TMP_MAX P) dir "tmp" suffix w) as [w1 [file|e]] eqn:E;
    [|done].
  intros [= <- <-]. apply mkstemp_inner_Ok in E. simpl. done.
Qed.

End TempFile.

Section OfflineRendererFacts.

Variable P : Platform.
Variable RenderCircuit : Type.
Variable super_render_circuit_as_html :
  Environment → RenderCircuit → bool → M (option string).
Variable self_env : Environment.

Local Abbreviation render :=
  (OfflineRenderer.render_circuit_as_html P super_render_circuit_as_html self_env).
Local Abbreviation super := (super_render_circuit_as_html self_env).

Lemma render_plain (circuit : RenderCircuit) (w : World) :
  render circuit false w = super circuit false w.
Proof.
  unfold OfflineRenderer.render_circuit_as_html, mbind, M_bind, bind.
  by destruct (super circuit false w) as [w1 [html|e]].
Qed.

Lemma render_super_raises (circuit : RenderCircuit) (jupyter : bool)
    (w w1 : World) (e : exn) :
  super circuit false w = (w1, Raise e) →
  render circuit jupyter w = (w1, Raise e).
Proof.
  intros H. unfold OfflineRenderer.render_circuit_as_html, mbind, M_bind, bind.
  by rewrite H.
Qed.

Lemma render_no_IPython (circuit : RenderCircuit) (w w1 : World)
    (html : option string) :
  IPython_display P = None →
  super circuit false w = (w1, Ok html) →
  render circuit true w
  = (w1, Raise (Exn ModuleNotFoundError "No module named 'IPython'" None)).
Proof.
  intros HP H.
  unfold OfflineRenderer.render_circuit_as_html, mbind, M_bind, bind.
  rewrite H. unfold import_IPython_display. by rewrite HP.
Qed.

(** The whole jupyter path once the page is rendered, IPython is there, a
    name is found and the page can be encoded: what the caller gets is
    decided by what [display] does. *)
Lemma render_jupyter_run (circuit : RenderCircuit) (w w1 w2 : World)
    (text : string) (d : DisplayObject → Files → Files * result unit)
    (fp : TextIOWrapper) (fs' : Files) (r : result unit) :
  super circuit false w = (w1, Ok (Some text)) →
  IPython_display P = Some d →
  NamedTemporaryFile P ".html" (cwd w1) w1 = (w2, Ok fp) →
  locale_encodes P text = true →
  d (HTML (iframe (posixpath_relpath (fp_name fp) (cwd w1))))
    (<[fp_name fp := text]> (files w1)) = (fs', r) →
  render circuit true w
  = let w5 :=
      {| files := fs'; cwd := cwd w1; clock := clock w1 + 5; rand := rand w2;
         recording := recording w1;
         log := log w1
                ++ [EvCreate (fp_name fp); EvWrite (fp_name fp) text;
                    EvDisplay (HTML (iframe (posixpath_relpath (fp_name fp) (cwd w1))));
                    EvSleep 5] |} in
    match fs' !! fp_name fp with
    | Some _ =>
        (emit (EvRemove (fp_name fp)) (set_files (delete (fp_name fp) fs') w5),
         match r with Ok _ => Ok None | Raise e => Raise e end)
    | None =>
        (w5,
         Raise (match r with
                | Ok _ => Exn FileNotFoundError (fp_name fp) None
                | Raise e => Exn FileNotFoundError (fp_name fp) (Some e)
                end))
    end.
Proof.
  intros Hs HP Ht He Hd.
  unfold OfflineRenderer.render_circuit_as_html, mbind, M_bind, bind.
  rewrite Hs. unfold import_IPython_display. rewrite HP. simpl.
  rewrite Ht.
  apply NamedTemporaryFile_Ok in Ht as (Hb & Hnew & Hf & Hc & Hk & Hr & Hl).
  destruct fp as [name buf], w2 as [f2 c2 k2 n2 rc2 l2],
    w1 as [f1 c1 k1 n1 rc1 l1]; simpl in *. subst.
  rewrite He. simpl. unfold fp_close. simpl. rewrite lookup_insert_eq.
  unfold try_finally, with_catch_warnings, call_display, os_remove,
    mbind, M_bind, bind.
  cbv [emit set_files set_clock set_recording files cwd clock rand recording log].
  rewrite !append_nil_l, insert_insert_eq, Hd.
  destruct r as [[]|e]; simpl; destruct (fs' !! name); simpl;
    rewrite <- ?app_assoc; reflexivity.
Qed.

(** C1 (amended): once the page is rendered and the temporary file is
    created, written and closed, the call ends, whether [display] returns or
    raises, with the five-second delay behind it and the temporary file gone:
    the log continues with the delay and then the removal (which is missing
    only when the file had already disappeared), and an exception of
    [display] that finds the file still in place reaches the caller after
    that.  When the rendering of the page raises, the exception reaches the
    caller at once: no file has been created, and there is no delay and no
    removal. *)
Theorem cleanup_once_file_written (circuit : RenderCircuit) (w : World) :
  (∀ (w1 : World) (e : exn),
     super circuit false w = (w1, Raise e) →
     render circuit true w = (w1, Raise e))
  ∧ (∀ (w1 w2 : World) (text : string)
       (d : DisplayObject → Files → Files * result unit) (fp : TextIOWrapper),
       super circuit false w = (w1, Ok (Some text)) →
       IPython_display P = Some d →
       NamedTemporaryFile P ".html" (cwd w1) w1 = (w2, Ok fp) →
       locale_encodes P text = true →
       let obj := HTML (iframe (posixpath_relpath (fp_name fp) (cwd w1))) in
       ∃ (w' : World) (r : result (option string)) (tail : list Event),
         render circuit true w = (w', r)
         ∧ files w' !! fp_name fp = None
         ∧ clock w' = clock w1 + 5
         ∧ log w' = log w1
                    ++ [EvCreate (fp_name fp); EvWrite (fp_name fp) text;
                        EvDisplay obj; EvSleep 5] ++ tail
         ∧ (tail = [EvRemove (fp_name fp)] ∨ tail = [])
         ∧ ∀ (fs' : Files) (e : exn),
             d obj (<[fp_name fp := text]> (files w1)) = (fs', Raise e) →
             is_Some (fs' !! fp_name fp) →
             r = Raise e).
Proof.
  split; [intros w1 e; apply render_super_raises|].
  intros w1 w2 text d fp Hs HP Ht He obj.
  destruct (d obj (<[fp_name fp := text]> (files w1))) as [fs' r] eqn:Hd.
  rewrite (render_jupyter_run _ _ _ _ _ _ _ _ _ Hs HP Ht He Hd). simpl.
  destruct (fs' !! fp_name fp) as [old|] eqn:Hold.
  - eexists _, _, [EvRemove (fp_name fp)]. split; [reflexivity|]. simpl.
    split; [apply lookup_delete_eq|]. split; [done|].
    split; [by rewrite <- app_assoc|]. split; [by left|].
    by intros fs'' e [= -> ->] _.
  - eexists _, _, []. split; [reflexivity|]. simpl.
    split; [done|]. split; [done|]. split; [done|]. split; [by right|].
    intros fs'' e [= -> ->] [? Hsome]. congruence.
Qed.

(** C5: with [jupyter] unset the call is the call of the base class, result
    and world alike, so the HTML string is returned and this class creates
    no file; with [jupyter] set a call that returns returns [None], and it
    does return whenever every step up to and including [display] succeeds
    and the file is still there to be removed. *)
Theorem offline_return_value (circuit : RenderCircuit) (w : World) :
  render circuit false w = super circuit false w
  ∧ (∀ (w' : World) (v : option string),
       render circuit true w = (w', Ok v) → v = None)
  ∧ (∀ (w1 w2 : World) (text : string)
       (d : DisplayObject → Files → Files * result unit) (fp : TextIOWrapper)
       (fs' : Files),
       super circuit false w = (w1, Ok (Some text)) →
       IPython_display P = Some d →
       NamedTemporaryFile P ".html" (cwd w1) w1 = (w2, Ok fp) →
       locale_encodes P text = true →
       d (HTML (iframe (posixpath_relpath (fp_name fp) (cwd w1))))
         (<[fp_name fp := text]> (files w1)) = (fs', Ok tt) →
       is_Some (fs' !! fp_name fp) →
       ∃ w' : World, render circuit true w = (w', Ok None)).
Proof.
  split; [apply render_plain|]. split.
  - intros w' v.
    unfold OfflineRenderer.render_circuit_as_html, mbind, M_bind, bind.
    destruct (super circuit false w) as [w1 [html|e]]; [|done].
    unfold import_IPython_display.
    destruct (IPython_display P) as [d|]; [|done]. simpl.
    destruct (NamedTemporaryFile P ".html" (cwd w1) w1) as [w2 [fp|e]]; [|done].
    destruct html as [text|]; [|done]. simpl.
    destruct (locale_encodes P text); [|done]. simpl.
    destruct (fp_close _ w2) as [w3 [[]|e]]; [|done].
    unfold try_finally, mbind, M_bind, bind.
    destruct (with_catch_warnings _ w3) as [w4 [[]|e]]; simpl.
    + destruct (os_remove _ _) as [w5 [[]|e]]; [|done]. by intros [= _ <-].
    + by destruct (os_remove _ _) as [w5 [[]|e']].
  - intros w1 w2 text d fp fs' Hs HP Ht He Hd [old Hold].
    rewrite (render_jupyter_run _ _ _ _ _ _ _ _ _ Hs HP Ht He Hd). simpl.
    rewrite Hold. by eexists.
Qed.

(** C6: on the jupyter path, once the page [text] is rendered with inline
    mode off and a temporary name is found, the call creates one file and
    no other, a file that did not exist before; [display] runs on the file
    system that holds [text] under that name and is otherwise as before;
    and when the call is over the file does not exist.  If [display] leaves
    the files alone, the file system is back to what it was. *)
Theorem temp_file_lifecycle (circuit : RenderCircuit) (w w1 w2 : World)
    (text : string) (d : DisplayObject → Files → Files * result unit)
    (fp : TextIOWrapper) :
  super circuit false w = (w1, Ok (Some text)) →
  IPython_display P = Some d →
  NamedTemporaryFile P ".html" (cwd w1) w1 = (w2, Ok fp) →
  locale_encodes P text = true →
  let obj := HTML (iframe (posixpath_relpath (fp_name fp) (cwd w1))) in
  let served := <[fp_name fp := text]> (files w1) in
  ∃ (w' : World) (r : result (option string)) (evs : list Event),
    render circuit true w = (w', r)
    ∧ files w1 !! fp_name fp = None
    ∧ log w' = log w1 ++ evs
    ∧ created evs = [fp_name fp]
    ∧ EvWrite (fp_name fp) text ∈ evs
    ∧ EvDisplay obj ∈ evs
    ∧ files w' = delete (fp_name fp) (d obj served).1
    ∧ files w' !! fp_name fp = None
    ∧ ((d obj served).1 = served → files w' = files w1).
Proof.
  intros Hs HP Ht He obj served.
  destruct (d obj served) as [fs' r] eqn:Hd.
  rewrite (render_jupyter_run _ _ _ _ _ _ _ _ _ Hs HP Ht He Hd). simpl.
  apply NamedTemporaryFile_Ok in Ht as (_ & Hnew & _).
  destruct (fs' !! fp_name fp) as [old|] eqn:Hold.
  - eexists _, _, _. split; [reflexivity|]. simpl.
    split; [done|]. split; [by rewrite <- app_assoc|].
    split; [done|]. split; [set_solver|]. split; [set_solver|].
    split; [done|]. split; [apply lookup_delete_eq|].
    intros ->. unfold served. by rewrite delete_insert_eq, delete_id.
  - eexists _, _, _. split; [reflexivity|]. simpl.
    split; [done|]. split; [done|].
    split; [done|]. split; [set_solver|]. split; [set_solver|].
    split; [by rewrite delete_id|]. split; [done|].
    intros ->. unfold served in Hold. by rewrite lookup_insert_eq in Hold.
Qed.

(** C7 (amended): a failure of the removal is not handled.  When the file
    is gone by the time the delay is over, the call raises
    [FileNotFoundError]: after a [display] that returned, in place of
    returning [None]; after a [display] that raised, in place of that
    exception, which is kept only as the context of the new one.  An
    exception of the rendering itself is never replaced, as it reaches the
    caller before any removal is attempted. *)
Theorem removal_failure_reaches_caller (circuit : RenderCircuit) (w : World) :
  (∀ (w1 : World) (e : exn),
     super circuit false w = (w1, Raise e) →
     render circuit true w = (w1, Raise e))
  ∧ (∀ (w1 w2 : World) (text : string)
       (d : DisplayObject → Files → Files * result unit) (fp : TextIOWrapper)
       (fs' : Files) (r : result unit),
       super circuit false w = (w1, Ok (Some text)) →
       IPython_display P = Some d →
       NamedTemporaryFile P ".html" (cwd w1) w1 = (w2, Ok fp) →
       locale_encodes P text = true →
       d (HTML (iframe (posixpath_relpath (fp_name fp) (cwd w1))))
         (<[fp_name fp := text]> (files w1)) = (fs', r) →
       fs' !! fp_name fp = None →
       ∃ w' : World,
         render circuit true w
         = (w', Raise (Exn FileNotFoundError (fp_name fp)
                         match r with Ok _ => None | Raise e => Some e end))).
Proof.
  split; [intros w1 e; apply render_super_raises|].
  intros w1 w2 text d fp fs' r Hs HP Ht He Hd Hgone.
  rewrite (render_jupyter_run _ _ _ _ _ _ _ _ _ Hs HP Ht He Hd). simpl.
  rewrite Hgone. eexists. by destruct r.
Qed.

(** C9: the import of the display capability happens on the jupyter path
    only.  Where IPython cannot be imported, a call with [jupyter] unset is
    the call of the base class and so never fails for that reason; a call
    with [jupyter] set raises the import's own [ModuleNotFoundError] once the
    page is rendered, with nothing created.  Where [display] itself raises
    and the file is still in place, that exception is the one the caller
    gets. *)
Theorem display_import_deferred (circuit : RenderCircuit) (w : World) :
  (IPython_display P = None →
   render circuit false w = super circuit false w)
  ∧ (∀ (w1 : World) (html : option string),
       IPython_display P = None →
       super circuit false w = (w1, Ok html) →
       render circuit true w
       = (w1, Raise (Exn ModuleNotFoundError "No module named 'IPython'" None)))
  ∧ (∀ (w1 w2 : World) (text : string)
       (d : DisplayObject → Files → Files * result unit) (fp : TextIOWrapper)
       (fs' : Files) (e : exn),
       super circuit false w = (w1, Ok (Some text)) →
       IPython_display P = Some d →
       NamedTemporaryFile P ".html" (cwd w1) w1 = (w2, Ok fp) →
       locale_encodes P text = true →
       d (HTML (iframe (posixpath_relpath (fp_name fp) (cwd w1))))
         (<[fp_name fp := text]> (files w1)) = (fs', Raise e) →
       is_Some (fs' !! fp_name fp) →
       ∃ w' : World, render circuit true w = (w', Raise e)).
Proof.
  split; [intros _; apply render_plain|].
  split; [intros w1 html HP Hs; by apply (render_no_IPython _ _ _ html)|].
  intros w1 w2 text d fp fs' e Hs HP Ht He Hd [old Hold].
  rewrite (render_jupyter_run _ _ _ _ _ _ _ _ _ Hs HP Ht He Hd). simpl.
  rewrite Hold. by eexists.
Qed.

End OfflineRendererFacts.

(** * The render step *)

Section RenderFacts.

Variables RenderCircuit IR : Type.
Variable convert : RenderCircuit → result IR.
Variable template_render :
  Environment → Files → Source → IR → bool → result string.
Variable page_template : string.

Local Abbreviation base_render :=
  (CircuitRenderer.render_circuit_as_html convert template_render page_template).

(** The render step leaves the world as it found it. *)
Lemma base_render_pure (e : Environment) (circuit : RenderCircuit)
    (inline : bool) (w : World) :
  (base_render e circuit inline w).1 = w.
Proof.
  unfold CircuitRenderer.render_circuit_as_html, CircuitRenderer.lift,
    CircuitRenderer.get_template, mbind, M_bind, bind.
  destruct (convert circuit) as [ir|err]; [|done].
  destruct (env_loader e page_template (files w)).2 as [tpl|err]; [|done].
  by destruct (template_render e (files w) tpl ir inline).
Qed.

(** Its result depends on the world through the files only. *)
Lemma base_render_files (e : Environment) (circuit : RenderCircuit)
    (inline : bool) (w w' : World) :
  files w = files w' →
  (base_render e circuit inline w).2 = (base_render e circuit inline w').2.
Proof.
  intros Hf.
  unfold CircuitRenderer.render_circuit_as_html, CircuitRenderer.lift,
    CircuitRenderer.get_template, mbind, M_bind, bind.
  destruct (convert circuit) as [ir|err]; [|done]. rewrite <- Hf.
  destruct (env_loader e page_template (files w)).2 as [tpl|err]; [|done].
  by destruct (template_render e (files w) tpl ir inline).
Qed.


(** A display in the notebook does not change what is rendered next: when
    [display] leaves the files alone, the file system after the jupyter path
    is the one before it, and the page rendered afterwards is the same. *)
Lemma render_same_after_display (P : Platform) (e : Environment)
    (circuit : RenderCircuit) (w w2 : World) (text : string)
    (d : DisplayObject → Files → Files * result unit) (fp : TextIOWrapper) :
  let offline := OfflineRenderer.render_circuit_as_html P base_render e in
  base_render e circuit false w = (w, Ok (Some text)) →
  IPython_display P = Some d →
  NamedTemporaryFile P ".html" (cwd w) w = (w2, Ok fp) →
  locale_encodes P text = true →
  (∀ obj fs, (d obj fs).1 = fs) →
  ∃ (w' : World) (r : result (option string)),
    offline circuit true w = (w', r)
    ∧ files w' = files w
    ∧ (offline circuit false w').2 = (offline circuit false w).2.
Proof.
  intros offline Hs HP Ht He Hd. unfold offline.
  destruct (d (HTML (iframe (posixpath_relpath (fp_name fp) (cwd w))))
              (<[fp_name fp := text]> (files w))) as [fs' r] eqn:Ed.
  pose proof (Hd (HTML (iframe (posixpath_relpath (fp_name fp) (cwd w))))
                (<[fp_name fp := text]> (files w))) as Hfs.
  rewrite Ed in Hfs. simpl in Hfs. subst fs'.
  rewrite (render_jupyter_run _ _ _ _ _ _ _ _ _ _ _ _ _ Hs HP Ht He Ed).
  simpl. rewrite lookup_insert_eq.
  apply NamedTemporaryFile_Ok in Ht as (_ & Hnew & _).
  eexists _, _. split; [reflexivity|].
  assert (Hback : delete (fp_name fp) (<[fp_name fp := text]> (files w))
                  = files w) by (by rewrite delete_insert_eq, delete_id).
  simpl. split; [exact Hback|].
  rewrite !render_plain. apply base_render_files. simpl. exact Hback.
Qed.

(** With [jupyter] unset the renderer of the [extensions] module is the
    renderer of the [circuit] module, and the world is left alone. *)
Lemma extensions_plain_is_circuit (P : Platform) (dirname : string)
    (html_loader js_loader : Loader) (circuit : RenderCircuit) (w : World) :
  extensions_render_circuit_as_html P convert template_render page_template
    dirname html_loader js_loader circuit false w
  = circuit_render_circuit_as_html convert template_render page_template
      dirname html_loader js_loader circuit false w
  ∧ (extensions_render_circuit_as_html P convert template_render page_template
       dirname html_loader js_loader circuit false w).1 = w.
Proof.
  unfold extensions_render_circuit_as_html, circuit_render_circuit_as_html.
  rewrite render_plain. split; [done|]. apply base_render_pure.
Qed.

End RenderFacts.

(** * The statements on the sample installation *)

(** [html/circuit.html] is installed in both tiers: the offline page wins. *)
Lemma override_precedence_witness :
  (Sample.L "html/circuit.html" Sample.fs).2
  = Ok {| source := "<div>offline page</div>";
          filename := "/pkg/static/circuit.html" |}.
Proof.
  refine (proj1 (override_precedence "/pkg" Sample.base_html Sample.base_js
                   "html" "circuit.html"
                   (FileSystemLoader "/pkg/static") Sample.base_html Sample.fs
                   {| source := "<div>offline page</div>";
                      filename := "/pkg/static/circuit.html" |}
                   {| source := "<div>base page</div>";
                      filename := "/lib/display/static/circuit.html" |}
                   _ _ _)).
  - reflexivity.
  - vm_compute. reflexivity.
  - vm_compute. reflexivity.
Defined.

(** [html/legend.html] is installed in the base tier only. *)
Lemma fallback_to_base_witness :
  (Sample.L "html/legend.html" Sample.fs).2
  = (Sample.base_html "legend.html" Sample.fs).2.
Proof.
  refine (proj1 (proj2 (fallback_to_base "/pkg" Sample.base_html Sample.base_js
                   "html" "legend.html"
                   (FileSystemLoader "/pkg/static") Sample.base_html Sample.fs
                   {| source := "<div>legend</div>";
                      filename := "/lib/display/static/legend.html" |}
                   _ _ _))).
  - reflexivity.
  - exists (Exn TemplateNotFound "legend.html" None). vm_compute. done.
  - vm_compute; reflexivity.
Defined.

(** [js/absent.js] is installed nowhere: one look at each directory, then
    the failure. *)
Lemma missing_name_fails_witness :
  Sample.L "js/absent.js" Sample.fs
  = ([IsFile "/pkg/dist/absent.js"; IsFile "/lib/display/dist/absent.js"],
     Raise (Exn TemplateNotFound "js/absent.js"
              (Some (Exn TemplateNotFound "absent.js" None)))).
Proof.
  refine (proj1 (missing_name_fails "/pkg" Sample.base_html Sample.base_js
                   "js" "absent.js"
                   (FileSystemLoader "/pkg/dist") Sample.base_js Sample.fs
                   _ _ _)).
  - reflexivity.
  - exists (Exn TemplateNotFound "absent.js" None). vm_compute. done.
  - exists (Exn TemplateNotFound "absent.js" None). vm_compute. done.
Defined.

(** There is no [css] namespace. *)
Lemma only_html_and_js_witness :
  ∃ cause,
    Sample.L "css/circuit.css" Sample.fs
    = ([], Raise (Exn TemplateNotFound "css/circuit.css" (Some cause))).
Proof.
  refine (proj2 (only_html_and_js "/pkg" Sample.base_html Sample.base_js)
            "css/circuit.css" Sample.fs _ _);
    intros name; vm_compute; discriminate.
Defined.

(** The page of the sample installation. *)
Lemma sample_page_rendered :
  Sample.base_render (env "/pkg" Sample.base_html Sample.base_js) "{c}" false
    Sample.w0
  = (Sample.w0, Ok (Some "<div>offline page</div>{c}")).
Proof. vm_compute. reflexivity. Qed.

(** Without a page template the rendering raises. *)
Lemma sample_page_missing :
  Sample.base_render (env "/pkg" Sample.base_html Sample.base_js) "{c}" false
    Sample.w_bare
  = (Sample.w_bare,
     Raise (Exn TemplateNotFound "html/circuit.html"
              (Some (Exn TemplateNotFound "circuit.html" None)))).
Proof. vm_compute. reflexivity. Qed.

(** A rendering that fails, and a display that raises once the file is
    served. *)
Lemma cleanup_once_file_written_witness :
  Sample.render Sample.notebook "{c}" true Sample.w_bare
  = (Sample.w_bare,
     Raise (Exn TemplateNotFound "html/circuit.html"
              (Some (Exn TemplateNotFound "circuit.html" None))))
  ∧ ∃ (w' : World) (r : result (option string)),
      Sample.render Sample.broken_notebook "{c}" true Sample.w0 = (w', r)
      ∧ files w' !! Sample.tmp = None
      ∧ clock w' = 5
      ∧ r = Raise Sample.display_error.
Proof.
  split.
  - refine (proj1 (cleanup_once_file_written Sample.notebook string
                     Sample.base_render
                     (env "/pkg" Sample.base_html Sample.base_js)
                     "{c}" Sample.w_bare) _ _ _).
    vm_compute. reflexivity.
  - destruct (proj2 (cleanup_once_file_written Sample.broken_notebook string
                       Sample.base_render
                       (env "/pkg" Sample.base_html Sample.base_js)
                       "{c}" Sample.w0)
                Sample.w0
                (NamedTemporaryFile Sample.broken_notebook ".html"
                   "/home/u/nb" Sample.w0).1
                "<div>offline page</div>{c}"
                (fun _ files => (files, Raise Sample.display_error))
                {| fp_name := Sample.tmp; fp_buffer := "" |})
      as (w' & r & tail & Hrun & Hgone & Hclock & _ & _ & Hexn).
    + vm_compute. reflexivity.
    + reflexivity.
    + vm_compute. reflexivity.
    + reflexivity.
    + exists w', r. split; [exact Hrun|]. split; [exact Hgone|].
      split; [exact Hclock|].
      eapply Hexn; [reflexivity|]. vm_compute. by eexists.
Defined.

(** A display in a working notebook returns [None]. *)
Lemma offline_return_value_witness :
  ∃ w' : World,
    Sample.render Sample.notebook "{c}" true Sample.w0 = (w', Ok None).
Proof.
  refine (proj2 (proj2 (offline_return_value Sample.notebook string
                          Sample.base_render
                          (env "/pkg" Sample.base_html Sample.base_js)
                          "{c}" Sample.w0))
            Sample.w0
            (NamedTemporaryFile Sample.notebook ".html" "/home/u/nb" Sample.w0).1
            "<div>offline page</div>{c}"
            (fun _ files => (files, Ok tt))
            {| fp_name := Sample.tmp; fp_buffer := "" |}
            (<[Sample.tmp := "<div>offline page</div>{c}"]> Sample.fs)
            _ _ _ _ _ _).
  - vm_compute. reflexivity.
  - reflexivity.
  - vm_compute. reflexivity.
  - reflexivity.
  - reflexivity.
  - vm_compute. by eexists.
Defined.

(** The one file of a display in a working notebook, and the file system
    afterwards. *)
Lemma temp_file_lifecycle_witness :
  ∃ (w' : World) (r : result (option string)) (evs : list Event),
    Sample.render Sample.notebook "{c}" true Sample.w0 = (w', r)
    ∧ log w' = evs
    ∧ created evs = [Sample.tmp]
    ∧ EvWrite Sample.tmp "<div>offline page</div>{c}" ∈ evs
    ∧ files w' !! Sample.tmp = None
    ∧ files w' = Sample.fs.
Proof.
  destruct (temp_file_lifecycle Sample.notebook string Sample.base_render
              (env "/pkg" Sample.base_html Sample.base_js) "{c}"
              Sample.w0 Sample.w0
              (NamedTemporaryFile Sample.notebook ".html" "/home/u/nb" Sample.w0).1
              "<div>offline page</div>{c}"
              (fun _ files => (files, Ok tt))
              {| fp_name := Sample.tmp; fp_buffer := "" |})
    as (w' & r & evs & Hrun & _ & Hlog & Hone & Hwr & _ & _ & Hgone & Hback).
  - vm_compute. reflexivity.
  - reflexivity.
  - vm_compute. reflexivity.
  - reflexivity.
  - exists w', r, evs. split; [exact Hrun|]. split; [exact Hlog|].
    split; [exact Hone|]. split; [exact Hwr|]. split; [exact Hgone|].
    apply Hback. reflexivity.
Defined.

(** A rendering that fails, and a display that raises under a frontend that
    takes the file away. *)
Lemma removal_failure_reaches_caller_witness :
  (Sample.render Sample.notebook "{c}" true Sample.w_bare).2
  = Raise (Exn TemplateNotFound "html/circuit.html"
             (Some (Exn TemplateNotFound "circuit.html" None)))
  ∧ ∃ w' : World,
      Sample.render Sample.broken_consuming_notebook "{c}" true Sample.w0
      = (w', Raise (Exn FileNotFoundError Sample.tmp
                      (Some Sample.display_error))).
Proof.
  split.
  - refine (f_equal snd
              (proj1 (removal_failure_reaches_caller Sample.notebook string
                        Sample.base_render
                        (env "/pkg" Sample.base_html Sample.base_js)
                        "{c}" Sample.w_bare) Sample.w_bare _ _)).
    vm_compute. reflexivity.
  - refine (proj2 (removal_failure_reaches_caller
                     Sample.broken_consuming_notebook string
                     Sample.base_render
                     (env "/pkg" Sample.base_html Sample.base_js)
                     "{c}" Sample.w0)
              Sample.w0
              (NamedTemporaryFile Sample.broken_consuming_notebook ".html"
                 "/home/u/nb" Sample.w0).1
              "<div>offline page</div>{c}"
              (fun _ files => (delete Sample.tmp files, Raise Sample.display_error))
              {| fp_name := Sample.tmp; fp_buffer := "" |}
              Sample.fs
              (Raise Sample.display_error)
              _ _ _ _ _ _).
    + vm_compute. reflexivity.
    + reflexivity.
    + vm_compute. reflexivity.
    + reflexivity.
    + vm_compute. reflexivity.
    + vm_compute. reflexivity.
Defined.

(** An interpreter without IPython, with and without [jupyter], and a
    notebook whose display raises. *)
Lemma display_import_deferred_witness :
  Sample.render Sample.plain_python "{c}" false Sample.w0
  = (Sample.w0, Ok (Some "<div>offline page</div>{c}"))
  ∧ Sample.render Sample.plain_python "{c}" true Sample.w0
    = (Sample.w0,
       Raise (Exn ModuleNotFoundError "No module named 'IPython'" None))
  ∧ ∃ w' : World,
      Sample.render Sample.broken_notebook "{c}" true Sample.w0
      = (w', Raise Sample.display_error).
Proof.
  split; [|split].
  - etransitivity;
      [refine (proj1 (display_import_deferred Sample.plain_python string
                        Sample.base_render
                        (env "/pkg" Sample.base_html Sample.base_js)
                        "{c}" Sample.w0) _); reflexivity
      |vm_compute; reflexivity].
  - refine (proj1 (proj2 (display_import_deferred Sample.plain_python string
                            Sample.base_render
                            (env "/pkg" Sample.base_html Sample.base_js)
                            "{c}" Sample.w0))
              Sample.w0 (Some "<div>offline page</div>{c}") _ _).
    + reflexivity.
    + vm_compute. reflexivity.
  - refine (proj2 (proj2 (display_import_deferred Sample.broken_notebook string
                            Sample.base_render
                            (env "/pkg" Sample.base_html Sample.base_js)
                            "{c}" Sample.w0))
              Sample.w0
              (NamedTemporaryFile Sample.broken_notebook ".html"
                 "/home/u/nb" Sample.w0).1
              "<div>offline page</div>{c}"
              (fun _ files => (files, Raise Sample.display_error))
              {| fp_name := Sample.tmp; fp_buffer := "" |}
              (<[Sample.tmp := "<div>offline page</div>{c}"]> Sample.fs)
              Sample.display_error
              _ _ _ _ _ _).
    + vm_compute. reflexivity.
    + reflexivity.
    + vm_compute. reflexivity.
    + reflexivity.
    + reflexivity.
    + vm_compute. by eexists.
Defined.

(** C1, as stated, fails: with no page template installed the rendering of
    the page raises, and the exception reaches the caller with no delay and
    no removal behind it. *)
Lemma cleanup_skipped_when_rendering_fails :
  Sample.render Sample.notebook "{c}" true Sample.w_bare
  = (Sample.w_bare,
     Raise (Exn TemplateNotFound "html/circuit.html"
              (Some (Exn TemplateNotFound "circuit.html" None))))
  ∧ clock Sample.w_bare = 0
  ∧ (EvSleep 5 ∉ log Sample.w_bare)
  ∧ ¬ (∀ (w' : World) (r : result (option string)),
         Sample.render Sample.notebook "{c}" true Sample.w_bare = (w', r) →
         EvSleep 5 ∈ log w' ∧ EvRemove Sample.tmp ∈ log w').
Proof.
  assert (Hrun : Sample.render Sample.notebook "{c}" true Sample.w_bare
                 = (Sample.w_bare,
                    Raise (Exn TemplateNotFound "html/circuit.html"
                             (Some (Exn TemplateNotFound "circuit.html" None)))))
    by (vm_compute; reflexivity).
  split; [exact Hrun|]. split; [reflexivity|].
  split; [simpl; set_solver|].
  intros H. destruct (H _ _ Hrun) as [Hsleep _]. simpl in Hsleep. set_solver.
Qed.

(** A page the locale cannot encode: the write raises after the file has
    been created, and the empty file stays behind. *)
Lemma file_left_behind_when_write_fails :
  ∃ w' : World,
    Sample.render Sample.ascii_locale_notebook "{c}" true Sample.w0
    = (w', Raise (Exn UnicodeEncodeError "<div>offline page</div>{c}" None))
    ∧ files w' !! Sample.tmp = Some ""
    ∧ log w' = [EvCreate Sample.tmp].
Proof. eexists. vm_compute. done. Qed.

(** C7, as stated, fails: when the file is gone before the removal, a
    [display] that returned is followed by [FileNotFoundError] instead of
    [None], and a [display] that raised has its exception replaced by
    [FileNotFoundError]. *)
Lemma removal_failure_replaces_outcome :
  (Sample.render Sample.consuming_notebook "{c}" true Sample.w0).2
  = Raise (Exn FileNotFoundError Sample.tmp None)
  ∧ (Sample.render Sample.broken_consuming_notebook "{c}" true Sample.w0).2
    = Raise (Exn FileNotFoundError Sample.tmp (Some Sample.display_error))
  ∧ (Sample.render Sample.broken_consuming_notebook "{c}" true Sample.w0).2
    ≠ Raise Sample.display_error.
Proof. vm_compute. done. Qed.


(** * More on the loader *)

Section LoaderMore.

Variable dirname : string.
Variables html_loader js_loader : Loader.

Local Abbreviation the_loader := (loader dirname html_loader js_loader).
Local Abbreviation the_tiers := (tiers dirname html_loader js_loader).

Lemma ChoiceLoader_two (o b : Loader) (name : string) (fs : Files) :
  ChoiceLoader [o; b] name fs
  = match o name fs with
    | (tr, Ok src) => (tr, Ok src)
    | (tr, Raise e) =>
        if is_TemplateNotFound e then
          match b name fs with
          | (tr', Ok src) => (tr ++ tr', Ok src)
          | (tr', Raise e') =>
              if is_TemplateNotFound e'
              then (tr ++ tr', Raise (Exn TemplateNotFound name None))
              else (tr ++ tr', Raise e')
          end
        else (tr, Raise e)
    end.
Proof.
  unfold ChoiceLoader. simpl.
  destruct (o name fs) as [tr [src|e]]; [done|].
  destruct (is_TemplateNotFound e); [|done].
  destruct (b name fs) as [tr' [src|e']]; [done|].
  destruct (is_TemplateNotFound e'); [|done]. by rewrite app_nil_r.
Qed.

(** X1: Every template the loader returns was found in a tier of a namespace it
    knows: it is the override tier's, or it is the base tier's and the
    override tier has none under that name. *)
Theorem found_in_a_tier (template : string) (fs : Files)
    (tr : list Access) (src : Source) :
  the_loader template fs = (tr, Ok src) →
  ∃ (ns name : string) (o b : Loader),
    template = qualified ns name
    ∧ the_tiers ns = Some (o, b)
    ∧ (present o name fs src ∨ (absent o name fs ∧ present b name fs src)).
Proof.
  destruct (str_split1 "/" template) as [[prefix name]|] eqn:E;
    [|by unfold loader, PrefixLoader, get_loader; rewrite E].
  pose proof (str_split1_Some _ _ _ E) as ->.
  destruct (the_tiers prefix) as [[o b]|] eqn:Ht;
    [|by unfold loader, PrefixLoader, get_loader;
         rewrite E, loader_mapping_tiers, Ht].
  rewrite (loader_qualified _ _ _ _ _ _ _ _ Ht), ChoiceLoader_two.
  unfold present, absent.
  destruct (o name fs) as [tro [so|eo]] eqn:Eo; simpl.
  - intros [= _ ->]. exists prefix, name, o, b.
    split; [done|]. split; [done|]. left. by rewrite Eo.
  - destruct (is_TemplateNotFound eo) eqn:Enf; [|by rewrite Enf].
    destruct (b name fs) as [trb [sb|eb]] eqn:Eb; simpl.
    + intros [= _ ->]. exists prefix, name, o, b.
      split; [done|]. split; [done|]. right. rewrite Eo, Eb.
      split; [by exists eo|done].
    + destruct (is_TemplateNotFound eb) eqn:Eb'; simpl; [done|].
      by rewrite Eb'.
Qed.

(** X2: Whenever the loader reports a template as not found, the exception
    names the template as it was asked for, prefix included, and keeps the
    underlying failure as its context. *)
Theorem not_found_names_the_request (template : string) (fs : Files)
    (tr : list Access) (e : exn) :
  the_loader template fs = (tr, Raise e) →
  is_TemplateNotFound e = true →
  ∃ cause, e = Exn TemplateNotFound template (Some cause).
Proof.
  unfold loader, PrefixLoader, get_loader.
  destruct (str_split1 "/" template) as [[prefix name]|];
    [|intros [= _ <-] _; by eexists].
  destruct (loader_mapping dirname html_loader js_loader !! prefix) as [l|];
    [|intros [= _ <-] _; by eexists].
  destruct (l name fs) as [tr' [src|e']]; [done|].
  destruct (is_TemplateNotFound e') eqn:E'.
  - intros [= _ <-] _. by eexists.
  - intros [= _ <-] He. congruence.
Qed.

(** X3: The namespaces do not mix: a lookup under [html] is the same whatever
    the base loader of [js] is, and the other way round. *)
Theorem namespaces_do_not_mix (name : string) (fs : Files)
    (html_loader' js_loader' : Loader) :
  the_loader (qualified "html" name) fs
  = loader dirname html_loader js_loader' (qualified "html" name) fs
  ∧ the_loader (qualified "js" name) fs
    = loader dirname html_loader' js_loader (qualified "js" name) fs.
Proof.
  split.
  - by rewrite !(loader_qualified _ _ _ "html" name _ _ fs eq_refl).
  - by rewrite !(loader_qualified _ _ _ "js" name _ _ fs eq_refl).
Qed.

(** X4: A failure of the base tier that is not a miss is not turned into one:
    it reaches the caller as it is. *)
Theorem base_error_passes_through (ns name : string) (o b : Loader)
    (fs : Files) (e : exn) :
  the_tiers ns = Some (o, b) →
  absent o name fs →
  (b name fs).2 = Raise e →
  is_TemplateNotFound e = false →
  the_loader (qualified ns name) fs = ((o name fs).1 ++ (b name fs).1, Raise e).
Proof.
  intros Ht (eo & Ho & Hnf) Hb He.
  rewrite (loader_qualified _ _ _ _ _ _ _ _ Ht), ChoiceLoader_two.
  destruct (o name fs) as [tro ro]; simpl in *. subst ro. rewrite Hnf.
  destruct (b name fs) as [trb rb]; simpl in *. subst rb.
  rewrite He. simpl. by rewrite He.
Qed.

(** X5: The override tier of [html] is the directory [static] beside the
    module, and that of [js] the directory [dist]: a file found there under
    the segments of the name decides the lookup, whatever the base tier
    holds.  If its bytes are well-formed UTF-8 the lookup returns them as
    text, with [\r\n] and [\r] read as [\n], together with the normalised
    path of the file; if they are not, the lookup raises
    [UnicodeDecodeError] and the base tier is not tried. *)
Theorem override_file_is_served (name : string) (pieces : list string)
    (fs : Files) (raw : string) :
  split_template_path name = Ok pieces →
  (fs !! os_path_join_all (os_path_join dirname "static") pieces = Some raw →
   the_loader (qualified "html" name) fs
   = ([IsFile (os_path_join_all (os_path_join dirname "static") pieces);
       Open (os_path_join_all (os_path_join dirname "static") pieces)],
      if utf8_valid raw then
        Ok {| source := universal_newlines raw;
              filename :=
                normpath (os_path_join_all (os_path_join dirname "static") pieces) |}
      else Raise (Exn UnicodeDecodeError "utf-8" None)))
  ∧ (fs !! os_path_join_all (os_path_join dirname "dist") pieces = Some raw →
     the_loader (qualified "js" name) fs
     = ([IsFile (os_path_join_all (os_path_join dirname "dist") pieces);
         Open (os_path_join_all (os_path_join dirname "dist") pieces)],
        if utf8_valid raw then
          Ok {| source := universal_newlines raw;
                filename :=
                  normpath (os_path_join_all (os_path_join dirname "dist") pieces) |}
        else Raise (Exn UnicodeDecodeError "utf-8" None))).
Proof.
  intros Hp. split; intros Hf.
  - rewrite (loader_qualified _ _ _ "html" name _ _ fs eq_refl), ChoiceLoader_two.
    unfold FileSystemLoader, read_text. rewrite Hp, Hf.
    by destruct (utf8_valid raw).
  - rewrite (loader_qualified _ _ _ "js" name _ _ fs eq_refl), ChoiceLoader_two.
    unfold FileSystemLoader, read_text. rewrite Hp, Hf.
    by destruct (utf8_valid raw).
Qed.

Lemma check_pieces_parent (template : string) (ps : list string) :
  ".." ∈ ps → check_pieces template ps = Raise (Exn TemplateNotFound template None).
Proof.
  induction ps as [|piece ps IH]; [by intros ?%elem_of_nil|].
  intros [<-|Hin]%elem_of_cons; simpl; [done|].
  case_bool_decide; [done|]. by rewrite IH.
Qed.

(** X6: A name with a [..] segment is never looked up in the override
    directory, whatever files exist: the override tier misses without
    touching the file system, and the lookup consults the base tier only. *)
Theorem parent_segment_skips_override (ns name : string) (o b : Loader)
    (fs : Files) :
  the_tiers ns = Some (o, b) →
  ".." ∈ str_split "/" name →
  o name fs = ([], Raise (Exn TemplateNotFound name None))
  ∧ (the_loader (qualified ns name) fs).1 = (b name fs).1.
Proof.
  intros Ht Hin.
  assert (Ho : o name fs = ([], Raise (Exn TemplateNotFound name None))).
  { unfold tiers in Ht. repeat case_bool_decide; simplify_eq;
      unfold FileSystemLoader, split_template_path;
      by rewrite check_pieces_parent. }
  split; [done|].
  rewrite (loader_qualified _ _ _ _ _ _ _ _ Ht), ChoiceLoader_two, Ho. simpl.
  destruct (b name fs) as [trb [sb|eb]]; simpl; [done|].
  destruct (is_TemplateNotFound eb) eqn:Eb; simpl; [done|]. by rewrite Eb.
Qed.

End LoaderMore.

(** * More on the renderer *)

(** ** Paths *)

Lemma no_slash_app (a b : string) :
  str_split1 "/" a = None → str_split1 "/" b = None →
  str_split1 "/" (a +:+ b) = None.
Proof.
  intros Ha Hb. induction a as [|c a IH]; [done|].
  rewrite append_cons. simpl in *.
  destruct (Ascii.eqb c "/"); [done|].
  destruct (str_split1 "/" a) as [[]|]; [done|]. by rewrite IH.
Qed.

Lemma no_slash_split (s : string) :
  str_split1 "/" s = None → str_split "/" s = [s].
Proof.
  induction s as [|c s IH]; simpl; [done|].
  destruct (Ascii.eqb c "/"); [done|].
  destruct (str_split1 "/" s) as [[]|]; [done|]. intros _. by rewrite IH.
Qed.

Lemma no_slash_startswith (s : string) :
  str_split1 "/" s = None → startswith "/" s = false.
Proof. destruct s as [|c s]; simpl; [done|]. by destruct (Ascii.eqb c "/"). Qed.

Lemma str_split_nonempty (s : string) :
  ∃ p ps, str_split "/" s = p :: ps.
Proof.
  induction s as [|c s (p & ps & IH)]; simpl; [by eexists _, _|].
  rewrite IH. destruct (Ascii.eqb c "/"); by eexists _, _.
Qed.

Lemma str_split_app_slash (a b : string) :
  str_split "/" (a +:+ String "/" b) = str_split "/" a ++ str_split "/" b.
Proof.
  induction a as [|c a IH]; [done|].
  rewrite append_cons. simpl. rewrite IH.
  destruct (Ascii.eqb c "/"); [done|].
  by destruct (str_split_nonempty a) as (p & ps & ->).
Qed.

Lemma str_split_app_last (a b : string) :
  str_split1 "/" b = None →
  ∃ ps l, str_split "/" a = ps ++ [l] ∧ str_split "/" (a +:+ b) = ps ++ [l +:+ b].
Proof.
  intros Hb. induction a as [|c a (ps & l & Ha & Hab)].
  - exists [], "". split; [done|]. by apply no_slash_split.
  - rewrite append_cons. simpl. rewrite Ha, Hab.
    destruct (Ascii.eqb c "/").
    + by exists ("" :: ps), l.
    + destruct ps as [|p ps]; simpl.
      * by exists [], (String c l).
      * by exists (String c p :: ps), l.
Qed.

Lemma endswith_split (a : string) :
  endswith "/" a = true → ∃ ps, str_split "/" a = ps ++ [""].
Proof.
  induction a as [|c a IH]; [done|]. simpl.
  destruct a as [|c' a].
  - intros ->. by exists [""].
  - intros H. destruct (IH H) as (ps & Hps). rewrite Hps.
    destruct (Ascii.eqb c "/"); [by exists ("" :: ps)|].
    destruct ps as [|p ps]; simpl.
    + simpl in Hps. destruct (str_split_nonempty a) as (q & qs & Hq).
      rewrite Hq in Hps. by destruct (Ascii.eqb c' "/").
    + by exists (String c p :: ps).
Qed.

Lemma segments_join (dir base : string) :
  str_split1 "/" base = None → base ≠ "" →
  segments (os_path_join dir base) = segments dir ++ [base].
Proof.
  intros Hb Hne. unfold os_path_join, segments.
  rewrite (no_slash_startswith _ Hb).
  destruct (bool_decide (dir = "") || endswith "/" dir) eqn:E.
  - destruct (str_split_app_last dir base Hb) as (ps & l & Hd & Hdb).
    assert (l = "") as ->.
    { apply orb_true_iff in E as [E|E].
      - apply bool_decide_eq_true in E as ->. simpl in Hd.
        change ([] ++ [""] = ps ++ [l]) in Hd.
        by apply app_inj_tail in Hd as [_ <-].
      - destruct (endswith_split _ E) as (ps' & Hps').
        rewrite Hps' in Hd. by apply app_inj_tail in Hd as [_ ->]. }
    rewrite Hd, Hdb, !filter_app, append_nil_l.
    rewrite (filter_cons_False _ "") by (by intros ?).
    rewrite (filter_cons_True _ base) by done.
    by rewrite filter_nil, app_nil_r.
  - change (dir +:+ "/" +:+ base) with (dir +:+ String "/" base).
    rewrite str_split_app_slash, (no_slash_split _ Hb), filter_app.
    by rewrite (filter_cons_True _ base).
Qed.

Lemma drop_common_app (l : list string) (x : string) :
  drop_common l (l ++ [x]) = ([], [x]).
Proof. induction l as [|a l IH]; simpl; [done|]. by rewrite bool_decide_true. Qed.

(** The path of a file relative to the directory it was joined to is its
    name. *)
Lemma relpath_join (dir base : string) :
  str_split1 "/" base = None → base ≠ "" →
  posixpath_relpath (os_path_join dir base) dir = base.
Proof.
  intros Hb Hne. unfold posixpath_relpath.
  by rewrite (segments_join _ _ Hb Hne), drop_common_app.
Qed.

(** ** The temporary file *)

Section TempFileMore.

Variable P : Platform.

Lemma mkstemp_inner_name (tries : nat) (dir pre suf : string) (w w' : World)
    (file : string) :
  mkstemp_inner P tries dir pre suf w = (w', Ok file) →
  ∃ k, rand w ≤ k ∧ file = os_path_join dir (pre +:+ tmp_name P k +:+ suf).
Proof.
  revert w. induction tries as [|n IH]; intros w; simpl; [done|].
  destruct (files w !! _) eqn:E.
  - intros H. apply IH in H as (k & Hk & ->). simpl in Hk. exists k.
    split; [lia|done].
  - intros [= <- <-]. by exists (rand w).
Qed.

Lemma mkstemp_inner_Raise (tries : nat) (dir pre suf : string) (w w' : World)
    (e : exn) :
  mkstemp_inner P tries dir pre suf w = (w', Raise e) →
  e = Exn FileExistsError "No usable temporary file name found" None
  ∧ files w' = files w
  ∧ cwd w' = cwd w ∧ clock w' = clock w ∧ recording w' = recording w
  ∧ log w' = log w
  ∧ ∀ k, k < tries →
      is_Some (files w !! os_path_join dir (pre +:+ tmp_name P (rand w + k) +:+ suf)).
Proof.
  revert w. induction tries as [|n IH]; intros w; simpl.
  - intros [= <- <-]. repeat split; try done. lia.
  - destruct (files w !! _) eqn:E; [|done].
    intros H. apply IH in H as (-> & Hf & Hc & Hk & Hr & Hl & Hall).
    simpl in *. repeat split; try done.
    intros [|k] Hlt.
    + rewrite Nat.add_0_r. by eexists.
    + replace (rand w + S k) with (S (rand w + k)) by lia. apply Hall. lia.
Qed.

Lemma NamedTemporaryFile_name (suffix dir : string) (w w' : World)
    (fp : TextIOWrapper) :
  NamedTemporaryFile P suffix dir w = (w', Ok fp) →
  ∃ k, rand w ≤ k
       ∧ fp_name fp = os_path_join dir ("tmp" +:+ tmp_name P k +:+ suffix).
Proof.
  unfold NamedTemporaryFile, mbind, M_bind, bind.
  destruct (mkstemp_inner P (TMP_MAX P) dir "tmp" suffix w) as [w1 [file|e]] eqn:E;
    [|done].
  intros [= <- <-]. by apply mkstemp_inner_name in E.
Qed.

Lemma NamedTemporaryFile_Raise (suffix dir : string) (w w' : World) (e : exn) :
  NamedTemporaryFile P suffix dir w = (w', Raise e) →
  e = Exn FileExistsError "No usable temporary file name found" None
  ∧ files w' = files w
  ∧ cwd w' = cwd w ∧ clock w' = clock w ∧ recording w' = recording w
  ∧ log w' = log w
  ∧ ∀ k, k < TMP_MAX P →
      is_Some (files w !! os_path_join dir ("tmp" +:+ tmp_name P (rand w + k) +:+ suffix)).
Proof.
  unfold NamedTemporaryFile, mbind, M_bind, bind.
  destruct (mkstemp_inner P (TMP_MAX P) dir "tmp" suffix w) as [w1 [file|e']] eqn:E;
    [done|].
  intros [= <- <-]. by apply mkstemp_inner_Raise in E.
Qed.

End TempFileMore.

Section OfflineRendererMore.

Variable P : Platform.
Variable RenderCircuit : Type.
Variable super_render_circuit_as_html :
  Environment → RenderCircuit → bool → M (option string).
Variable self_env : Environment.

Local Abbreviation render :=
  (OfflineRenderer.render_circuit_as_html P super_render_circuit_as_html self_env).
Local Abbreviation super := (super_render_circuit_as_html self_env).

Lemma render_creation_fails (circuit : RenderCircuit) (w w1 w2 : World)
    (html : option string) (d : DisplayObject → Files → Files * result unit)
    (e : exn) :
  super circuit false w = (w1, Ok html) →
  IPython_display P = Some d →
  NamedTemporaryFile P ".html" (cwd w1) w1 = (w2, Raise e) →
  render circuit true w = (w2, Raise e).
Proof.
  intros Hs HP Ht.
  unfold OfflineRenderer.render_circuit_as_html, mbind, M_bind, bind.
  rewrite Hs. unfold import_IPython_display. rewrite HP. simpl. by rewrite Ht.
Qed.

Lemma render_write_None (circuit : RenderCircuit) (w w1 w2 : World)
    (d : DisplayObject → Files → Files * result unit) (fp : TextIOWrapper) :
  super circuit false w = (w1, Ok None) →
  IPython_display P = Some d →
  NamedTemporaryFile P ".html" (cwd w1) w1 = (w2, Ok fp) →
  render circuit true w
  = (w2, Raise (Exn TypeError "write() argument must be str, not None" None)).
Proof.
  intros Hs HP Ht.
  unfold OfflineRenderer.render_circuit_as_html, mbind, M_bind, bind.
  rewrite Hs. unfold import_IPython_display. rewrite HP. simpl. by rewrite Ht.
Qed.

Lemma render_write_unencodable (circuit : RenderCircuit) (w w1 w2 : World)
    (text : string) (d : DisplayObject → Files → Files * result unit)
    (fp : TextIOWrapper) :
  super circuit false w = (w1, Ok (Some text)) →
  IPython_display P = Some d →
  NamedTemporaryFile P ".html" (cwd w1) w1 = (w2, Ok fp) →
  locale_encodes P text = false →
  render circuit true w = (w2, Raise (Exn UnicodeEncodeError text None)).
Proof.
  intros Hs HP Ht He.
  unfold OfflineRenderer.render_circuit_as_html, mbind, M_bind, bind.
  rewrite Hs. unfold import_IPython_display. rewrite HP. simpl. rewrite Ht.
  simpl. by rewrite He.
Qed.

(** Membership in an explicit list of events, taken apart. *)
Ltac invert_elem H :=
  repeat match type of H with
         | _ ∈ _ :: _ => apply elem_of_cons in H as [H|H]; [try discriminate H|]
         | _ ∈ [] => by apply elem_of_nil in H
         end.

(** Case analysis over every way a call with [jupyter] set can go: the
    outcome of each step is named and the call is rewritten to its result. *)
Ltac jupyter_cases circuit w :=
  destruct (super_render_circuit_as_html self_env circuit false w)
    as [w1 [[text|]|e]] eqn:Hs;
  [ destruct (IPython_display P) as [d|] eqn:HP;
    [ destruct (NamedTemporaryFile P ".html" (cwd w1) w1)
        as [w2 [fp|e]] eqn:Ht;
      [ destruct (locale_encodes P text) eqn:He;
        [ destruct (d (HTML (iframe (posixpath_relpath (fp_name fp) (cwd w1))))
                      (<[fp_name fp := text]> (files w1)))
            as [fs' r] eqn:Hd;
          rewrite (render_jupyter_run _ _ _ _ _ _ _ _ _ _ _ _ _ Hs HP Ht He Hd)
        | rewrite (render_write_unencodable _ _ _ _ _ _ _ Hs HP Ht He) ]
      | rewrite (render_creation_fails _ _ _ _ _ _ _ Hs HP Ht) ]
    | rewrite (render_no_IPython _ _ _ _ _ _ _ _ HP Hs) ]
  | destruct (IPython_display P) as [d|] eqn:HP;
    [ destruct (NamedTemporaryFile P ".html" (cwd w1) w1)
        as [w2 [fp|e]] eqn:Ht;
      [ rewrite (render_write_None _ _ _ _ _ _ Hs HP Ht)
      | rewrite (render_creation_fails _ _ _ _ _ _ _ Hs HP Ht) ]
    | rewrite (render_no_IPython _ _ _ _ _ _ _ _ HP Hs) ]
  | rewrite (render_super_raises _ _ _ _ _ _ _ _ _ Hs) ].

(** X7: The recording of warnings ends with the display: after a call with
    [jupyter] set the warnings machinery is in the state in which the
    rendering of the page left it, whether the call returns or raises, and
    at whatever step. *)
Theorem warnings_state_restored (circuit : RenderCircuit) (w : World) :
  recording (render circuit true w).1 = recording (super circuit false w).1.
Proof.
  jupyter_cases circuit w; simpl;
    try (apply NamedTemporaryFile_Ok in Ht as (_ & _ & _ & _ & _ & ? & _));
    try (apply NamedTemporaryFile_Raise in Ht as (_ & _ & _ & _ & ? & _));
    try done.
  by destruct (fs' !! fp_name fp).
Qed.

(** X8: Whatever a call with [jupyter] set creates is one file at most, in the
    current working directory, named [tmp], a name of the generator, and
    [.html]; and no file of that name existed before. *)
Theorem created_file_in_cwd (circuit : RenderCircuit) (w : World) :
  ∃ evs : list Event,
    log (render circuit true w).1 = log (super circuit false w).1 ++ evs
    ∧ length (created evs) ≤ 1
    ∧ ∀ path : string,
        path ∈ created evs →
        files (super circuit false w).1 !! path = None
        ∧ ∃ k : nat,
            path = os_path_join (cwd (super circuit false w).1)
                     ("tmp" +:+ tmp_name P k +:+ ".html").
Proof.
  jupyter_cases circuit w; simpl;
    try (pose proof (NamedTemporaryFile_name _ _ _ _ _ _ Ht) as (k & _ & Hk));
    try (apply NamedTemporaryFile_Ok in Ht as (_ & Hnew & _ & _ & _ & _ & Hl));
    try (apply NamedTemporaryFile_Raise in Ht as (_ & _ & _ & _ & _ & Hl & _)).
  - exists ([EvCreate (fp_name fp); EvWrite (fp_name fp) text;
             EvDisplay (HTML (iframe (posixpath_relpath (fp_name fp) (cwd w1))));
             EvSleep 5]
            ++ if fs' !! fp_name fp is Some _ then [EvRemove (fp_name fp)] else []).
    destruct (fs' !! fp_name fp); simpl;
      (split; [by rewrite <- ?app_assoc|]); (split; [lia|]);
      intros path ->%list_elem_of_singleton; eauto.
  - exists [EvCreate (fp_name fp)]. simpl. split; [done|]. split; [lia|].
    intros path ->%list_elem_of_singleton; eauto.
  - exists []. simpl. rewrite app_nil_r. split; [done|]. split; [lia|].
    by intros path ?%elem_of_nil.
  - exists []. simpl. rewrite app_nil_r. split; [done|]. split; [lia|].
    by intros path ?%elem_of_nil.
  - exists [EvCreate (fp_name fp)]. simpl. split; [done|]. split; [lia|].
    intros path ->%list_elem_of_singleton; eauto.
  - exists []. simpl. rewrite app_nil_r. split; [done|]. split; [lia|].
    by intros path ?%elem_of_nil.
  - exists []. simpl. rewrite app_nil_r. split; [done|]. split; [lia|].
    by intros path ?%elem_of_nil.
  - exists []. simpl. rewrite app_nil_r. split; [done|]. split; [lia|].
    by intros path ?%elem_of_nil.
Qed.

(** X9: The delay is paid exactly when [display] has been called: such a call
    takes five seconds, whether [display] returned or raised, and its trace
    is the creation, the write, the display, the delay and the removal (which
    is missing only if the file had disappeared); every other call with
    [jupyter] set takes no time and displays nothing. *)
Theorem delay_exactly_when_displayed (circuit : RenderCircuit) (w : World) :
  ∃ evs : list Event,
    log (render circuit true w).1 = log (super circuit false w).1 ++ evs
    ∧ ((clock (render circuit true w).1 = clock (super circuit false w).1 + 5
        ∧ ∃ (name text : string) (obj : DisplayObject) (tail : list Event),
            evs = [EvCreate name; EvWrite name text; EvDisplay obj; EvSleep 5]
                  ++ tail
            ∧ (tail = [EvRemove name] ∨ tail = []))
       ∨ (clock (render circuit true w).1 = clock (super circuit false w).1
          ∧ (evs = [] ∨ ∃ name : string, evs = [EvCreate name]))).
Proof.
  jupyter_cases circuit w; simpl;
    try (apply NamedTemporaryFile_Ok in Ht as (_ & _ & _ & _ & Hk & _ & Hl));
    try (apply NamedTemporaryFile_Raise in Ht as (_ & _ & _ & Hk & _ & Hl & _)).
  - exists ([EvCreate (fp_name fp); EvWrite (fp_name fp) text;
             EvDisplay (HTML (iframe (posixpath_relpath (fp_name fp) (cwd w1))));
             EvSleep 5]
            ++ if fs' !! fp_name fp is Some _ then [EvRemove (fp_name fp)] else []).
    destruct (fs' !! fp_name fp); simpl;
      (split; [by rewrite <- ?app_assoc|]); left; (split; [done|]);
      eexists _, _, _, _; (split; [reflexivity|]); eauto.
  - exists [EvCreate (fp_name fp)]. split; [done|]. right. eauto.
  - exists []. rewrite app_nil_r. split; [done|]. right. eauto.
  - exists []. rewrite app_nil_r. split; [done|]. right. eauto.
  - exists [EvCreate (fp_name fp)]. split; [done|]. right. eauto.
  - exists []. rewrite app_nil_r. split; [done|]. right. eauto.
  - exists []. rewrite app_nil_r. split; [done|]. right. eauto.
  - exists []. rewrite app_nil_r. split; [done|]. right. eauto.
Qed.

(** X10: With a display that leaves the files alone, or with none, a call with
    [jupyter] set never changes or removes a file that was there before: the
    file system afterwards is the one the rendering left, or, when the call
    raises out of the write, that file system with one new empty file. *)
Theorem existing_files_untouched (circuit : RenderCircuit) (w : World) :
  (∀ d, IPython_display P = Some d → ∀ obj fs, (d obj fs).1 = fs) →
  (files (render circuit true w).1 = files (super circuit false w).1
   ∨ ∃ name : string,
       files (super circuit false w).1 !! name = None
       ∧ files (render circuit true w).1
         = <[name := ""]> (files (super circuit false w).1)
       ∧ ∃ e, (render circuit true w).2 = Raise e)
  ∧ ∀ (path contents : string),
      files (super circuit false w).1 !! path = Some contents →
      files (render circuit true w).1 !! path = Some contents.
Proof.
  intros Hd'.
  assert (files (render circuit true w).1 = files (super circuit false w).1
          ∨ ∃ name : string,
              files (super circuit false w).1 !! name = None
              ∧ files (render circuit true w).1
                = <[name := ""]> (files (super circuit false w).1)
              ∧ ∃ e, (render circuit true w).2 = Raise e) as Hcases.
  { jupyter_cases circuit w; simpl;
      try (apply NamedTemporaryFile_Ok in Ht as (_ & Hnew & Hf & _));
      try (apply NamedTemporaryFile_Raise in Ht as (_ & Hf & _));
      try (by left); try (right; exists (fp_name fp); by eauto).
    left. pose proof (Hd' d eq_refl
      (HTML (iframe (posixpath_relpath (fp_name fp) (cwd w1))))
      (<[fp_name fp := text]> (files w1))) as Hfs.
    rewrite Hd in Hfs. simpl in Hfs. subst fs'.
    rewrite lookup_insert_eq. simpl.
    by rewrite delete_insert_eq, delete_id. }
  split; [exact Hcases|].
  intros path contents Hp. destruct Hcases as [->|(name & Hnew & -> & _)];
    [done|].
  rewrite lookup_insert_ne; [done|]. intros ->. congruence.
Qed.

(** X11: A call with [jupyter] set that returns has displayed the page: the page
    was rendered to a string, written to a new file, handed to [display],
    which returned, and after the delay the file was removed.  The trace of
    the call is exactly these five steps. *)
Theorem return_means_displayed (circuit : RenderCircuit) (w w' : World)
    (v : option string) :
  render circuit true w = (w', Ok v) →
  ∃ (w1 : World) (text name : string) (obj : DisplayObject),
    super circuit false w = (w1, Ok (Some text))
    ∧ files w1 !! name = None
    ∧ log w' = log w1 ++ [EvCreate name; EvWrite name text; EvDisplay obj;
                           EvSleep 5; EvRemove name]
    ∧ files w' !! name = None
    ∧ clock w' = clock w1 + 5.
Proof.
  jupyter_cases circuit w; simpl; try done.
  apply NamedTemporaryFile_Ok in Ht as (_ & Hnew & _).
  destruct (fs' !! fp_name fp) eqn:E; [|done].
  destruct r as [[]|e]; [|done]. intros [= <- _].
  eexists w1, text, (fp_name fp), _. simpl.
  split; [done|]. split; [done|]. split; [by rewrite <- app_assoc|].
  split; [apply lookup_delete_eq|done].
Qed.

(** X12: The frame handed to [display] points at the file just created, by its
    name alone: the path of the file relative to the working directory, in
    which it was created. *)
Theorem iframe_points_at_file (circuit : RenderCircuit) (w : World) :
  (∀ n, str_split1 "/" (tmp_name P n) = None) →
  ∃ evs : list Event,
    log (render circuit true w).1 = log (super circuit false w).1 ++ evs
    ∧ ∀ obj : DisplayObject,
        EvDisplay obj ∈ evs →
        ∃ k : nat,
          obj = HTML (iframe ("tmp" +:+ tmp_name P k +:+ ".html"))
          ∧ EvCreate (os_path_join (cwd (super circuit false w).1)
                        ("tmp" +:+ tmp_name P k +:+ ".html")) ∈ evs.
Proof.
  intros Hnames.
  jupyter_cases circuit w; simpl;
    try (pose proof (NamedTemporaryFile_name _ _ _ _ _ _ Ht) as (k & _ & Hk));
    try (apply NamedTemporaryFile_Ok in Ht as (_ & _ & _ & _ & _ & _ & Hl));
    try (apply NamedTemporaryFile_Raise in Ht as (_ & _ & _ & _ & _ & Hl & _)).
  - exists ([EvCreate (fp_name fp); EvWrite (fp_name fp) text;
             EvDisplay (HTML (iframe (posixpath_relpath (fp_name fp) (cwd w1))));
             EvSleep 5]
            ++ if fs' !! fp_name fp is Some _ then [EvRemove (fp_name fp)] else []).
    split; [by destruct (fs' !! fp_name fp); simpl; rewrite <- ?app_assoc|].
    intros obj Hobj. exists k.
    assert (obj = HTML (iframe (posixpath_relpath (fp_name fp) (cwd w1)))) as ->.
    { destruct (fs' !! fp_name fp); simpl in Hobj; invert_elem Hobj;
        by injection Hobj. }
    split; [|rewrite <- Hk; apply list_elem_of_here].
    rewrite Hk, relpath_join; [done| |].
    + apply (no_slash_app "tmp"); [done|]. by apply no_slash_app.
    + done.
  - exists [EvCreate (fp_name fp)]. split; [done|].
    intros obj Hobj. invert_elem Hobj.
  - exists []. rewrite app_nil_r. split; [done|].
    intros obj Hobj. invert_elem Hobj.
  - exists []. rewrite app_nil_r. split; [done|].
    intros obj Hobj. invert_elem Hobj.
  - exists [EvCreate (fp_name fp)]. split; [done|].
    intros obj Hobj. invert_elem Hobj.
  - exists []. rewrite app_nil_r. split; [done|].
    intros obj Hobj. invert_elem Hobj.
  - exists []. rewrite app_nil_r. split; [done|].
    intros obj Hobj. invert_elem Hobj.
  - exists []. rewrite app_nil_r. split; [done|].
    intros obj Hobj. invert_elem Hobj.
Qed.

(** X13: When the write raises, because the base method returned no string or
    because the locale cannot encode the page, the exception reaches the
    caller and the file just created stays behind, empty: nothing is
    displayed, there is no delay and no removal. *)
Theorem write_failure_leaves_file (circuit : RenderCircuit) (w w1 w2 : World)
    (html : option string) (d : DisplayObject → Files → Files * result unit)
    (fp : TextIOWrapper) :
  super circuit false w = (w1, Ok html) →
  IPython_display P = Some d →
  NamedTemporaryFile P ".html" (cwd w1) w1 = (w2, Ok fp) →
  (html = None ∨ ∃ text, html = Some text ∧ locale_encodes P text = false) →
  (∃ e, render circuit true w = (w2, Raise e)
        ∧ (exn_cls e = TypeError ∨ exn_cls e = UnicodeEncodeError))
  ∧ files w1 !! fp_name fp = None
  ∧ files w2 !! fp_name fp = Some ""
  ∧ log w2 = log w1 ++ [EvCreate (fp_name fp)]
  ∧ clock w2 = clock w1.
Proof.
  intros Hs HP Ht Hw. split.
  - destruct Hw as [->|(text & -> & He)].
    + rewrite (render_write_None _ _ _ _ _ _ Hs HP Ht). eexists. eauto.
    + rewrite (render_write_unencodable _ _ _ _ _ _ _ Hs HP Ht He).
      eexists. eauto.
  - apply NamedTemporaryFile_Ok in Ht as (_ & Hnew & Hf & _ & Hk & _ & Hl).
    rewrite Hf, lookup_insert_eq. done.
Qed.

Lemma mkstemp_inner_all_taken (tries : nat) (dir pre suf : string) (w : World) :
  (∀ k, k < tries →
     is_Some (files w !! os_path_join dir (pre +:+ tmp_name P (rand w + k) +:+ suf))) →
  ∃ w', mkstemp_inner P tries dir pre suf w
        = (w', Raise (Exn FileExistsError "No usable temporary file name found" None)).
Proof.
  revert w. induction tries as [|n IH]; intros w Hall; simpl; [by eexists|].
  destruct (Hall 0) as [old Hold]; [lia|].
  rewrite Nat.add_0_r in Hold. rewrite Hold.
  apply IH. intros k Hk. simpl.
  replace (S (rand w + k)) with (rand w + S k) by lia. apply Hall. lia.
Qed.

(** X14: When each of the first [TMP_MAX] names the generator proposes is
    taken ([os.TMP_MAX] of them where the platform defines it, 10000
    otherwise), the call raises [FileExistsError] once the page is rendered:
    no file is created or changed, nothing is displayed and no time is
    spent. *)
Theorem no_free_name_is_clean (circuit : RenderCircuit) (w w1 : World)
    (html : option string) (d : DisplayObject → Files → Files * result unit) :
  super circuit false w = (w1, Ok html) →
  IPython_display P = Some d →
  (∀ k, k < TMP_MAX P →
     is_Some (files w1 !! os_path_join (cwd w1)
                ("tmp" +:+ tmp_name P (rand w1 + k) +:+ ".html"))) →
  ∃ w2 : World,
    render circuit true w
    = (w2, Raise (Exn FileExistsError "No usable temporary file name found" None))
    ∧ files w2 = files w1
    ∧ log w2 = log w1
    ∧ clock w2 = clock w1.
Proof.
  intros Hs HP Hall.
  destruct (mkstemp_inner_all_taken _ _ _ _ _ Hall) as (w2 & Hm).
  assert (Ht : NamedTemporaryFile P ".html" (cwd w1) w1
               = (w2, Raise (Exn FileExistsError
                               "No usable temporary file name found" None))).
  { unfold NamedTemporaryFile, mbind, M_bind, bind. by rewrite Hm. }
  exists w2. rewrite (render_creation_fails _ _ _ _ _ _ _ Hs HP Ht).
  apply NamedTemporaryFile_Raise in Ht as (_ & Hf & _ & Hk & _ & Hl & _).
  done.
Qed.

End OfflineRendererMore.

(** * The further statements on the sample installation *)

(** [html/legend.html] comes from the base tier, the override tier having
    none. *)
Lemma found_in_a_tier_witness :
  ∃ (ns name : string) (o b : Loader),
    "html/legend.html" = qualified ns name
    ∧ tiers "/pkg" Sample.base_html Sample.base_js ns = Some (o, b)
    ∧ (present o name Sample.fs
         {| source := "<div>legend</div>";
            filename := "/lib/display/static/legend.html" |}
       ∨ (absent o name Sample.fs
          ∧ present b name Sample.fs
              {| source := "<div>legend</div>";
                 filename := "/lib/display/static/legend.html" |})).
Proof.
  refine (found_in_a_tier "/pkg" Sample.base_html Sample.base_js
            "html/legend.html" Sample.fs
            [IsFile "/pkg/static/legend.html";
             IsFile "/lib/display/static/legend.html";
             Open "/lib/display/static/legend.html"]
            _ _).
  vm_compute. reflexivity.
Defined.

(** The failure for [js/absent.js] carries that name. *)
Lemma not_found_names_the_request_witness :
  ∃ cause,
    Exn TemplateNotFound "js/absent.js"
      (Some (Exn TemplateNotFound "absent.js" None))
    = Exn TemplateNotFound "js/absent.js" (Some cause).
Proof.
  refine (not_found_names_the_request "/pkg" Sample.base_html Sample.base_js
            "js/absent.js" Sample.fs
            [IsFile "/pkg/dist/absent.js"; IsFile "/lib/display/dist/absent.js"]
            _ _ _).
  - vm_compute. reflexivity.
  - reflexivity.
Defined.

(** A base tier that cannot be read: its error is what the caller sees. *)
Lemma base_error_passes_through_witness :
  loader "/pkg" Faults.unreadable_base Sample.base_js "html/legend.html" Sample.fs
  = ([IsFile "/pkg/static/legend.html"; IsFile "/lib/display/static"],
     Raise Faults.permission_error).
Proof.
  refine (base_error_passes_through "/pkg" Faults.unreadable_base Sample.base_js
            "html" "legend.html"
            (FileSystemLoader "/pkg/static") Faults.unreadable_base
            Sample.fs Faults.permission_error _ _ _ _).
  - reflexivity.
  - exists (Exn TemplateNotFound "legend.html" None). vm_compute. done.
  - reflexivity.
  - reflexivity.
Defined.

(** The page in [/pkg/static] and the script in [/pkg/dist]. *)
Lemma override_file_is_served_witness :
  (Sample.L "html/circuit.html" Sample.fs).2
  = Ok {| source := "<div>offline page</div>";
          filename := "/pkg/static/circuit.html" |}
  ∧ (Sample.L "js/main.js" Faults.fs_script).2
    = Ok {| source := "offline()"; filename := "/pkg/dist/main.js" |}.
Proof.
  split.
  - refine (f_equal snd
              (proj1 (override_file_is_served "/pkg" Sample.base_html
                        Sample.base_js "circuit.html" ["circuit.html"]
                        Sample.fs "<div>offline page</div>" _) _));
      vm_compute; reflexivity.
  - refine (f_equal snd
              (proj2 (override_file_is_served "/pkg" Sample.base_html
                        Sample.base_js "main.js" ["main.js"]
                        Faults.fs_script "offline()" _) _));
      vm_compute; reflexivity.
Defined.

(** [html/../secret.html]: the file is there under that path, and the
    override tier does not look. *)
Lemma parent_segment_skips_override_witness :
  Faults.fs_secret !! "/pkg/static/../secret.html" = Some "<div>secret</div>"
  ∧ FileSystemLoader "/pkg/static" "../secret.html" Faults.fs_secret
    = ([], Raise (Exn TemplateNotFound "../secret.html" None)).
Proof.
  split; [vm_compute; reflexivity|].
  refine (proj1 (parent_segment_skips_override "/pkg" Sample.base_html
                   Sample.base_js "html" "../secret.html"
                   (FileSystemLoader "/pkg/static") Sample.base_html
                   Faults.fs_secret _ _)).
  - reflexivity.
  - vm_compute. apply list_elem_of_here.
Defined.

(** After a display in the sample notebook the offline page is as it was. *)
Lemma existing_files_untouched_witness :
  files (Sample.render Sample.notebook "{c}" true Sample.w0).1
    !! "/pkg/static/circuit.html"
  = Some "<div>offline page</div>".
Proof.
  refine (proj2 (existing_files_untouched Sample.notebook string
                   Sample.base_render
                   (env "/pkg" Sample.base_html Sample.base_js)
                   "{c}" Sample.w0 _)
            "/pkg/static/circuit.html" "<div>offline page</div>" _).
  - intros d [= <-] obj fs. reflexivity.
  - vm_compute. reflexivity.
Defined.

(** The call in the sample notebook returns, so it displayed. *)
Lemma return_means_displayed_witness :
  ∃ (w1 : World) (text name : string) (obj : DisplayObject),
    Sample.base_render (env "/pkg" Sample.base_html Sample.base_js) "{c}" false
      Sample.w0 = (w1, Ok (Some text))
    ∧ files w1 !! name = None
    ∧ log (Sample.render Sample.notebook "{c}" true Sample.w0).1
      = log w1 ++ [EvCreate name; EvWrite name text; EvDisplay obj;
                    EvSleep 5; EvRemove name]
    ∧ files (Sample.render Sample.notebook "{c}" true Sample.w0).1 !! name = None
    ∧ clock (Sample.render Sample.notebook "{c}" true Sample.w0).1
      = clock w1 + 5.
Proof.
  refine (return_means_displayed Sample.notebook string Sample.base_render
            (env "/pkg" Sample.base_html Sample.base_js) "{c}" Sample.w0
            (Sample.render Sample.notebook "{c}" true Sample.w0).1 None _).
  vm_compute. reflexivity.
Defined.

(** The names of the sample generator have no separator in them. *)
Lemma iframe_points_at_file_witness :
  ∃ evs : list Event,
    log (Sample.render Sample.notebook "{c}" true Sample.w0).1
    = log (Sample.base_render (env "/pkg" Sample.base_html Sample.base_js)
             "{c}" false Sample.w0).1 ++ evs
    ∧ ∀ obj : DisplayObject,
        EvDisplay obj ∈ evs →
        ∃ k : nat,
          obj = HTML (iframe ("tmp" +:+ Sample.names k +:+ ".html"))
          ∧ EvCreate
              (os_path_join
                 (cwd (Sample.base_render
                         (env "/pkg" Sample.base_html Sample.base_js)
                         "{c}" false Sample.w0).1)
                 ("tmp" +:+ Sample.names k +:+ ".html")) ∈ evs.
Proof.
  refine (iframe_points_at_file Sample.notebook string Sample.base_render
            (env "/pkg" Sample.base_html Sample.base_js) "{c}" Sample.w0 _).
  intros n. reflexivity.
Defined.

(** Under a locale that cannot encode the page the empty file stays. *)
Lemma write_failure_leaves_file_witness :
  (∃ e, Sample.render Sample.ascii_locale_notebook "{c}" true Sample.w0
        = ((NamedTemporaryFile Sample.ascii_locale_notebook ".html"
              "/home/u/nb" Sample.w0).1, Raise e)
        ∧ (exn_cls e = TypeError ∨ exn_cls e = UnicodeEncodeError))
  ∧ files (NamedTemporaryFile Sample.ascii_locale_notebook ".html"
             "/home/u/nb" Sample.w0).1 !! Sample.tmp = Some "".
Proof.
  destruct (write_failure_leaves_file Sample.ascii_locale_notebook string
              Sample.base_render
              (env "/pkg" Sample.base_html Sample.base_js) "{c}"
              Sample.w0 Sample.w0
              (NamedTemporaryFile Sample.ascii_locale_notebook ".html"
                 "/home/u/nb" Sample.w0).1
              (Some "<div>offline page</div>{c}")
              (fun _ files => (files, Ok tt))
              {| fp_name := Sample.tmp; fp_buffer := "" |})
    as (Hrun & _ & Hleft & _).
  - vm_compute. reflexivity.
  - reflexivity.
  - vm_compute. reflexivity.
  - right. exists "<div>offline page</div>{c}". split; reflexivity.
  - split; [exact Hrun|exact Hleft].
Defined.

(** With the stale file in the way and a generator that knows one name. *)
Lemma no_free_name_is_clean_witness :
  ∃ w2 : World,
    Sample.render Sample.notebook "{c}" true Faults.w_taken
    = (w2, Raise (Exn FileExistsError "No usable temporary file name found" None))
    ∧ files w2 = files Faults.w_taken
    ∧ log w2 = log Faults.w_taken
    ∧ clock w2 = clock Faults.w_taken.
Proof.
  refine (no_free_name_is_clean Sample.notebook string Sample.base_render
            (env "/pkg" Sample.base_html Sample.base_js) "{c}"
            Faults.w_taken Faults.w_taken
            (Some "<div>offline page</div>{c}")
            (fun _ files => (files, Ok tt)) _ _ _).
  - vm_compute. reflexivity.
  - reflexivity.
  - intros k _. vm_compute. by eexists.
Defined.
